(** * Tag-page plugin: settings, tag indexer, page generator, orchestration

    A shallow embedding of [src/main.ts] (the plugin class: settings
    loading, [createTagPage], [refreshTagPageContent]) together with a
    model of the two helpers it imports, the tag indexer
    ([utils/tagSearch], [fetchTagData]) and the page content generator
    ([utils/pageContent], [generateTagPageContent]).

    JavaScript strings are [string]; JavaScript objects used as key/value
    records are [gmap string _]; the vault is a finite map from paths to
    files; promise chains are run sequentially in a small state-and-error
    monad that also records the host calls made. *)

From Stdlib Require Ascii String.
From Stdlib Require Import Bool NArith.
From stdpp Require Import base option list sorting strings pretty gmap.

(** ** JavaScript string primitives *)

Module Js.

(** [prefix_rest t s] is [Some r] when [s = t ++ r]. *)
Fixpoint prefix_rest (t s : string) : option string :=
  match t with
  | EmptyString => Some s
  | String a t' =>
      match s with
      | EmptyString => None
      | String b s' => if Ascii.eqb a b then prefix_rest t' s' else None
      end
  end.

(** [s.startsWith(t)] *)
Definition startsWith (s t : string) : bool :=
  match prefix_rest t s with Some _ => true | None => false end.

(** [s.includes(t)]: [t] occurs somewhere in [s]. *)
Fixpoint includes (s t : string) : bool :=
  startsWith s t ||
  match s with
  | EmptyString => false
  | String _ s' => includes s' t
  end.

(** The line-feed character and the one-character string of it. *)
Definition LF : Ascii.ascii := Ascii.ascii_of_nat 10.
Definition nl : string := String LF EmptyString.

(** [s.split(nl)]: the pieces between line feeds, at least one. *)
Fixpoint lines (s : string) : list string :=
  match s with
  | EmptyString => [EmptyString]
  | String c s' =>
      if Ascii.eqb c LF then EmptyString :: lines s'
      else match lines s' with
           | l :: ls => String c l :: ls
           | [] => [String c EmptyString]
           end
  end.

(** What follows a line in the text it was cut from. *)
Definition line_end (B : string) : Prop := B = "" ∨ ∃ B', B = String LF B'.

(** JSON scalars, as they come back from the persisted settings file. *)
Inductive value : Type :=
| VString (s : string)
| VBool (b : bool)
| VNumber (z : Z)
| VNull.

#[global] Instance value_eq_dec : EqDecision value.
Proof. solve_decision. Defined.

(** A plain object: own enumerable properties by name. *)
Abbreviation object := (gmap string value).

(** The one property name that an assignment treats specially. *)
Definition proto : string := "__proto__".

(** One source of [Object.assign]: each own property of the source is
    assigned to the target, overriding what was there; a [null] or
    [undefined] source is skipped. The pair is the target's own properties
    and whether it still inherits the [__proto__] accessor of
    [Object.prototype]. While it does and has no own property of that
    name, assigning to [__proto__] runs that setter and creates no own
    property: the value [null] detaches the prototype (and with it the
    accessor), a string, boolean or number is ignored. On a detached
    target, or on one with an own [__proto__], it is a property like any
    other. *)
Definition assign1 (target : object * bool) (source : option object)
  : object * bool :=
  match source with
  | Some src =>
      if target.2 && bool_decide (target.1 !! proto = None)
      then (delete proto src ∪ target.1,
            negb (bool_decide (src !! proto = Some VNull)))
      else (src ∪ target.1, target.2)
  | None => target
  end.

(** [Object.assign(target, ...sources)] on a target that is an ordinary
    object; the result is given by its own properties. *)
Definition Object_assign (target : object) (sources : list (option object))
  : object :=
  (foldl assign1 (target, true) sources).1.

(** The string a value turns into in a template literal or as the argument
    of a string method; [None] is [undefined]. Numbers are the integers,
    printed in decimal as JavaScript prints them below ten to the 21. *)
Definition ToString (v : option value) : string :=
  match v with
  | Some (VString s) => s
  | Some (VBool true) => "true"
  | Some (VBool false) => "false"
  | Some (VNumber z) => pretty z
  | Some VNull => "null"
  | None => "undefined"
  end.

End Js.

(** ** Settings ([main.ts], lines 16-30 and 61-67) *)

Definition DEFAULT_SETTINGS : Js.object :=
  <[ "mySetting" := Js.VString "default" ]>
  (<[ "tagPageDir" := Js.VString "Tags" ]>
  (<[ "frontmatterQueryProperty" := Js.VString "tage-page-query" ]>
  (<[ "bulletedSubItems" := Js.VBool true ]>
  (<[ "includeLines" := Js.VBool true ]> ∅)))).

(** [loadSettings]: [loadData] yields the stored record, or [null] when
    nothing was ever saved. *)
Definition loadSettings (loadData : option Js.object) : Js.object :=
  Js.Object_assign ∅ [Some DEFAULT_SETTINGS; loadData].

(** The four configuration fields of the documented surface. *)
Definition documented_default (k : string) : option Js.value :=
  if String.eqb k "tagPageDir" then Some (Js.VString "Tags")
  else if String.eqb k "frontmatterQueryProperty"
       then Some (Js.VString "tage-page-query")
  else if String.eqb k "bulletedSubItems" then Some (Js.VBool true)
  else if String.eqb k "includeLines" then Some (Js.VBool true)
  else None.


(** The typed view of the settings object ([interface PluginSettings],
    [main.ts] lines 16-22): the two flags are optional. *)
Record PluginSettings : Type := {
  mySetting : string;
  tagPageDir : string;
  frontmatterQueryProperty : string;
  bulletedSubItems : option bool;
  includeLines : option bool;
}.

(** A field read where the code uses it as a string. *)
Definition get_string (o : Js.object) (k : string) : string :=
  Js.ToString (o !! k).

Definition get_flag (o : Js.object) (k : string) : option bool :=
  match o !! k with Some (Js.VBool b) => Some b | _ => None end.

Definition settings_view (o : Js.object) : PluginSettings :=
  {| mySetting := get_string o "mySetting";
     tagPageDir := get_string o "tagPageDir";
     frontmatterQueryProperty := get_string o "frontmatterQueryProperty";
     bulletedSubItems := get_flag o "bulletedSubItems";
     includeLines := get_flag o "includeLines" |}.

(** An optional flag used as a condition: [undefined] is falsy. *)
Definition truthy (o : option bool) : bool := default false o.

(** ** Data model ([types.ts], lines 8-11, and the store's documents) *)

Record TagInfo : Type := {
  fileLink : string;
  tagMatches : list string;
}.

Record Document : Type := {
  path : string;
  content : string;
  frontmatter : gmap string Js.value;
}.

(** [tag.startsWith('#') ? tag : `#${tag}`] ([main.ts], line 102). *)
Definition normalizeTag (tag : string) : string :=
  if Js.startsWith tag "#" then tag else "#" +:+ tag.

(** Paths are ordered as strings, character by character. *)
Definition path_le (p q : string) : Prop := String.leb p q = true.

#[global] Instance path_le_dec : RelDecision path_le.
Proof. intros p q. unfold path_le. apply _. Defined.

(** What a promise can be rejected with: the host's refusal to create
    over an existing path, the input error of the specification's error
    list, or anything else a helper throws. *)
Inductive error : Type :=
| FileAlreadyExists (p : string)
| InvalidTagInput
| Thrown (reason : string).

(** ** Tag indexer *)

Module Indexer.
Section Indexer.

(** How a document reference is derived from its path is left to the
    output format. *)
Variable fileLinkOf : string → string.

(** Modelled from the spec: the characters that continue a tag-like
    token ([utils/tagSearch] is not among the sources; the spec only
    gives the example that [#work] must not match [#working]). Letters,
    digits, [_], [-] and [/] continue a tag. *)
Definition is_tag_char (c : Ascii.ascii) : bool :=
  let n := Ascii.N_of_ascii c in
  ((48 <=? n) && (n <=? 57) || (65 <=? n) && (n <=? 90)
   || (97 <=? n) && (n <=? 122)
   || (n =? 95) || (n =? 45) || (n =? 47))%N.

Section Tokens.

(** The characters that continue a tag-like token; the rule is written
    for any such class, and [index] uses [is_tag_char]. *)
Variable continues : Ascii.ascii → bool.

(** Modelled from the spec: the tag stands at the head of [s] as a
    whole token, that is, it is not continued by a tag character
    (section 4.1, inline match; [fetchTagData] is missing). *)
Definition token_at (tag s : string) : bool :=
  match Js.prefix_rest tag s with
  | Some EmptyString => true
  | Some (String c _) => negb (continues c)
  | None => false
  end.

(** Modelled from the spec: the line holds at least one whole-token
    occurrence of the tag (section 4.1; [fetchTagData] is missing). *)
Fixpoint has_token (tag s : string) : bool :=
  token_at tag s ||
  match s with
  | EmptyString => false
  | String _ s' => has_token tag s'
  end.

(** What may follow a whole-token occurrence of the tag: nothing, or a
    character that does not continue a tag. *)
Definition whole_token_end (rest : string) : Prop :=
  rest = "" ∨ ∃ c r, rest = String c r ∧ continues c = false.

(** The tag occurs in [text] only as the beginning of longer tokens. *)
Definition only_as_prefix (tag text : string) : Prop :=
  ∀ pre rest, text = pre +:+ tag +:+ rest →
              ∃ c rest', rest = String c rest' ∧ continues c = true.

(** Every place where the tag starts in [s] is continued by a tag
    character: the tag occurs, if at all, only as the beginning of a
    longer token. *)
Fixpoint continued_everywhere (tag s : string) : bool :=
  match Js.prefix_rest tag s with
  | Some EmptyString => false
  | Some (String c _) => continues c
  | None => true
  end &&
  match s with
  | EmptyString => true
  | String _ s' => continued_everywhere tag s'
  end.

(** Modelled from the spec: the inline rule of section 4.1
    ([fetchTagData] is missing): every line with an occurrence, in
    order, once per line. *)
Definition inline_matches (tag text : string) : list string :=
  filter (λ l, has_token tag l = true) (Js.lines text).

End Tokens.

(** Modelled from the spec: the frontmatter-query rule of section 4.1
    ([fetchTagData] is missing): the configured key is present and its
    value equals the normalized tag. *)
Definition frontmatter_match (config : PluginSettings) (tag : string)
    (d : Document) : bool :=
  bool_decide
    (frontmatter d !! frontmatterQueryProperty config
     = Some (Js.VString tag)).

(** Modelled from the spec: the synthetic evidence entry of a
    frontmatter match, with the wording of section 4.1. *)
Definition frontmatter_marker : string := "matched via frontmatter query".

(** Modelled from the spec: the evidence of both rules merged, inline
    lines first, frontmatter marker last (section 4.1). *)
Definition evidence (config : PluginSettings) (tag : string)
    (d : Document) : list string :=
  inline_matches is_tag_char tag (content d) ++
  (if frontmatter_match config tag d then [frontmatter_marker] else []).

(** Modelled from the spec: pages living inside [config.tagPageDir] are
    not scanned (section 4.1; [fetchTagData] is missing). *)
Definition inTagPageDir (config : PluginSettings) (p : string) : bool :=
  Js.startsWith p (tagPageDir config +:+ "/").

(** Modelled from the spec: the record one document contributes, if
    any (section 4.1; [fetchTagData] is missing). *)
Definition index_doc (config : PluginSettings) (tag : string)
    (d : Document) : option TagInfo :=
  if inTagPageDir config (path d) then None
  else match evidence config tag d with
       | [] => None
       | ev => Some {| fileLink := fileLinkOf (path d); tagMatches := ev |}
       end.

(** Records are compared by the path of their document. *)
Definition keyed_le (x y : string * TagInfo) : Prop := path_le x.1 y.1.

#[local] Instance keyed_le_dec : RelDecision keyed_le.
Proof. intros x y. unfold keyed_le. apply _. Defined.

(** Modelled from the spec: the records of the matching documents in
    scan order, each with the path it came from (section 4.1;
    [fetchTagData] is missing). *)
Definition scan (config : PluginSettings) (tag : string)
    (documents : list Document) : list (string * TagInfo) :=
  omap (λ d, (λ ti, (path d, ti)) <$> index_doc config tag d) documents.

(** Modelled from the spec: the scanned records sorted by path
    (section 4.1; [fetchTagData] is missing). *)
Definition index_keyed (documents : list Document) (tagOfInterest : string)
    (config : PluginSettings) : list (string * TagInfo) :=
  merge_sort keyed_le (scan config (normalizeTag tagOfInterest) documents).

(** Modelled from the spec: [index(documents, tagOfInterest, config)]
    of section 4.1, standing for [fetchTagData], which is missing. *)
Definition index (documents : list Document) (tagOfInterest : string)
    (config : PluginSettings) : list TagInfo :=
  (index_keyed documents tagOfInterest config).*2.

(** Modelled from the spec: the input check of section 7, which
    rejects a tag of interest that is empty or only the marker before any
    scan; it is put in front of [index] ([fetchTagData] is missing). *)
Definition index_checked (documents : list Document) (tagOfInterest : string)
    (config : PluginSettings) : error + list TagInfo :=
  if bool_decide (normalizeTag tagOfInterest = "#") then inl InvalidTagInput
  else inr (index documents tagOfInterest config).

End Indexer.
End Indexer.

(** ** Page content generator *)

Module Generator.
Section Generator.

(** How text is made safe for the list and link syntax is left open. *)
Variable escape : string → string.

(** Modelled from the spec: the explicit notice of an empty result
    (section 4.2 asks for one and leaves the wording open). *)
Definition no_matches_notice : string := "No matches found.".

(** Modelled from the spec: the heading line naming the normalized tag
    (section 4.2; [generateTagPageContent] is missing). *)
Definition heading (tagOfInterest : string) : string :=
  "# " +:+ normalizeTag tagOfInterest +:+ Js.nl.

(** Modelled from the spec: one evidence line under its item, as a
    nested bullet or as a plain indented line (sections 4.2 and 6). *)
Definition render_line (config : PluginSettings) (l : string) : string :=
  (if truthy (bulletedSubItems config) then "  - " else "  ")
  +:+ escape l +:+ Js.nl.

(** Modelled from the spec: one top-level item with the link, and its
    evidence lines when [includeLines] is set (sections 4.2 and 6). *)
Definition render_item (config : PluginSettings) (ti : TagInfo) : string :=
  "- " +:+ escape (fileLink ti) +:+ Js.nl +:+
  (if truthy (includeLines config)
   then String.concat "" (render_line config <$> tagMatches ti)
   else "").

(** Modelled from the spec: [render(config, tagInfos, tagOfInterest)]
    of sections 4.2 and 6, standing for [generateTagPageContent], which
    is missing: heading, blank line, then one item per record, or the
    notice when there is none. *)
Definition render (config : PluginSettings) (tagInfos : list TagInfo)
    (tagOfInterest : string) : string :=
  heading tagOfInterest +:+ Js.nl +:+
  match tagInfos with
  | [] => no_matches_notice +:+ Js.nl
  | _ => String.concat "" (render_item config <$> tagInfos)
  end.

End Generator.
End Generator.

(** ** The host: vault, workspace and the calls made to them *)

Record FileData : Type := {
  fd_content : string;
  fd_frontmatter : gmap string Js.value;
}.

Record Vault : Type := {
  files : gmap string FileData;
  folders : gset string;
}.

(** What [getAbstractFileByPath] hands back. *)
Inductive TAbstractFile : Type :=
| TFile (p : string)
| TFolder (p : string).

Definition abstract_path (f : TAbstractFile) : string :=
  match f with TFile p | TFolder p => p end.

(** The work a command performs, in the order performed. *)
Inductive call : Type :=
| CallFetchTagData (tag : string)
| CallGenerate (tag : string)
| CallCreateFolder (dir : string)
| CallCreate (p data : string)
| CallOpenFile (p : string).

Record World : Type := {
  vault : Vault;
  shown : option string;
  calls : list call;
}.

(** State and failure: a rejected promise aborts the rest of the chain;
    the world reached by then stays as it is. *)
Definition M (A : Type) : Type := World → error * World + A * World.

#[global] Instance M_ret : MRet M := λ A x w, inr (x, w).
#[global] Instance M_bind : MBind M := λ A B f m w,
  match m w with
  | inl failed => inl failed
  | inr (x, w') => f x w'
  end.

Definition get_vault : M Vault := λ w, inr (vault w, w).

Definition record (c : call) : M unit := λ w,
  inr (tt, {| vault := vault w; shown := shown w; calls := calls w ++ [c] |}).

Definition reject {A} (e : error) : M A := λ w, inl (e, w).

(** Awaiting a helper: its result, or its rejection. *)
Definition settle {A} (r : error + A) : M A := λ w,
  match r with
  | inl e => inl (e, w)
  | inr x => inr (x, w)
  end.

(** A helper that resolves with the value of a function. *)
Definition resolves {A B C R} (f : A → B → C → R) : A → B → C → error + R :=
  λ a b c, inr (f a b c).

Definition listDocuments (v : Vault) : list Document :=
  (λ kv, {| path := kv.1; content := fd_content kv.2;
            frontmatter := fd_frontmatter kv.2 |}) <$> map_to_list (files v).

Module Host.

Definition lookup_path (v : Vault) (p : string) : option TAbstractFile :=
  match files v !! p with
  | Some _ => Some (TFile p)
  | None => if decide (p ∈ folders v) then Some (TFolder p) else None
  end.

(** [app.vault.getAbstractFileByPath(p)] *)
Definition getAbstractFileByPath (p : string) : M (option TAbstractFile) :=
  v ← get_vault; mret (lookup_path v p).

(** [app.vault.adapter.exists(p)] *)
Definition adapter_exists (p : string) : M bool :=
  v ← get_vault; mret (bool_decide (is_Some (lookup_path v p))).

(** [app.vault.createFolder(p)]. The caller drops the promise, so a
    rejection would not reach the chain; the folder is added when the
    name is free. *)
Definition createFolder (p : string) : M unit := λ w,
  let v := vault w in
  let v' := if bool_decide (is_Some (lookup_path v p)) then v
            else {| files := files v; folders := {[ p ]} ∪ folders v |} in
  inr (tt, {| vault := v'; shown := shown w;
              calls := calls w ++ [CallCreateFolder p] |}).

(** [app.vault.create(p, data)]: rejects when something is already
    there. *)
Definition create (p data : string) : M TAbstractFile := λ w,
  let v := vault w in
  match lookup_path v p with
  | Some _ => reject (FileAlreadyExists p) w
  | None =>
      inr (TFile p,
           {| vault := {| files := <[ p := {| fd_content := data;
                                             fd_frontmatter := ∅ |} ]>
                                    (files v);
                          folders := folders v |};
              shown := shown w;
              calls := calls w ++ [CallCreate p data] |})
  end.

(** [app.workspace.getLeaf().openFile(f)] *)
Definition openFile (f : TAbstractFile) : M unit := λ w,
  inr (tt, {| vault := vault w; shown := Some (abstract_path f);
              calls := calls w ++ [CallOpenFile (abstract_path f)] |}).

End Host.

(** The active view handed to the refresh callback: the editor's text
    (when the view has an editor) and the file it shows. *)
Record MarkdownView : Type := {
  editor : option string;
  file : option string;
}.

(** ** The plugin ([main.ts], lines 73-149) *)

Module Plugin.

Section Paths.

Variable settings : PluginSettings.

(** [`${this.settings.tagPageDir}/${tagOfInterest}.md`] *)
Definition tagPagePath (tagOfInterest : string) : string :=
  tagPageDir settings +:+ "/" +:+ tagOfInterest +:+ ".md".

(** The guard of lines 89-94 as one condition on the view. *)
Definition refresh_guard (leaf : MarkdownView) : bool :=
  match editor leaf, file leaf with
  | Some _, Some currentFile => Js.includes currentFile (tagPageDir settings)
  | _, _ => false
  end.

(** The world after the page for the normalized tag [t] was created with
    the text [data]. *)
Definition page_created (data t : string) (w : World) : World :=
  let v := vault w in
  let dir := tagPageDir settings in
  let present := bool_decide (is_Some (Host.lookup_path v dir)) in
  {| vault :=
       {| files := <[ tagPagePath t := {| fd_content := data;
                                          fd_frontmatter := ∅ |} ]> (files v);
          folders := if present then folders v else {[ dir ]} ∪ folders v |};
     shown := Some (tagPagePath t);
     calls := calls w ++
              [CallFetchTagData t; CallGenerate t] ++
              (if present then [] else [CallCreateFolder dir]) ++
              [CallCreate (tagPagePath t) data; CallOpenFile (tagPagePath t)] |}.

End Paths.

(** The world after an existing page was merely opened. *)
Definition opened_world (f : TAbstractFile) (w : World) : World :=
  {| vault := vault w; shown := Some (abstract_path f);
     calls := calls w ++ [CallOpenFile (abstract_path f)] |}.

(** The world after the indexer was called, and after both helpers were. *)
Definition fetched_world (tag : string) (w : World) : World :=
  {| vault := vault w; shown := shown w;
     calls := calls w ++ [CallFetchTagData tag] |}.

Definition scanned_world (tag : string) (w : World) : World :=
  {| vault := vault w; shown := shown w;
     calls := calls w ++ [CallFetchTagData tag; CallGenerate tag] |}.

(** *** The two methods as written: both helpers are awaited and may
    reject *)

Module Async.
Section Async.

(** The two imported helpers, whose modules are not part of the
    sources: the indexer reads the vault, the generator is given the
    records; either may reject. *)
Variable fetchTagData :
  Vault → PluginSettings → string → error + list TagInfo.
Variable generateTagPageContent :
  PluginSettings → list TagInfo → string → error + string.

Variable settings : PluginSettings.

Definition fetch (tagOfInterest : string) : M (list TagInfo) :=
  v ← get_vault;
  record (CallFetchTagData tagOfInterest);;
  settle (fetchTagData v settings tagOfInterest).

Definition generate (tagsInfo : list TagInfo) (tagOfInterest : string)
  : M string :=
  record (CallGenerate tagOfInterest);;
  settle (generateTagPageContent settings tagsInfo tagOfInterest).

(** [refreshTagPageContent(activeLeaf, tagOfInterest)]; the result is
    the view after the call. *)
Definition refreshTagPageContent (activeLeaf : option MarkdownView)
    (tagOfInterest : string) : M (option MarkdownView) :=
  tagsInfo ← fetch tagOfInterest;
  tagPageContentString ← generate tagsInfo tagOfInterest;
  match activeLeaf return M (option MarkdownView) with
  | None => mret None
  | Some leaf =>
      match editor leaf with
      | None => mret (Some leaf)
      | Some _ =>
          match file leaf with
          | Some currentFile =>
              if Js.includes currentFile (tagPageDir settings)
              then mret (Some {| editor := Some tagPageContentString;
                                 file := file leaf |})
              else mret (Some leaf)
          | None => mret (Some leaf)
          end
      end
  end.

(** [createTagPage(tag)] *)
Definition createTagPage (tag : string) : M unit :=
  let tagOfInterest := normalizeTag tag in
  tagPage ← Host.getAbstractFileByPath (tagPagePath settings tagOfInterest);
  match tagPage with
  | None =>
      tagsInfo ← fetch tagOfInterest;
      tagPageContentString ← generate tagsInfo tagOfInterest;
      exists_ ← Host.adapter_exists (tagPageDir settings);
      (if negb exists_ then Host.createFolder (tagPageDir settings)
       else mret tt);;
      createdPage ← Host.create (tagPagePath settings tagOfInterest)
                                tagPageContentString;
      Host.openFile createdPage
  | Some f => Host.openFile f
  end.

End Async.
End Async.

(** *** The two methods with helpers that resolve *)

Section Plugin.

(** The helpers as functions: the records found in a vault, and the text
    of a page. *)
Variable fetchTagData : Vault → PluginSettings → string → list TagInfo.
Variable generateTagPageContent :
  PluginSettings → list TagInfo → string → string.

Variable settings : PluginSettings.

Definition refreshTagPageContent
  : option MarkdownView → string → M (option MarkdownView) :=
  Async.refreshTagPageContent (resolves fetchTagData)
    (resolves generateTagPageContent) settings.

Definition createTagPage : string → M unit :=
  Async.createTagPage (resolves fetchTagData)
    (resolves generateTagPageContent) settings.

(** The world after a page was created for the normalized tag [t]. *)
Definition created_world (t : string) (w : World) : World :=
  page_created settings
    (generateTagPageContent settings (fetchTagData (vault w) settings t) t)
    t w.

End Plugin.
End Plugin.

(** ** The plugin wired to the modelled helpers, for concrete runs *)

Definition wikilink (p : string) : string := "[[" +:+ p +:+ "]]".
Definition verbatim (s : string) : string := s.

(** The records of the vault's documents for a tag that has a name; the
    input check on the tag is [fetchTagData_checked]'s. *)
Definition fetchTagData_model (v : Vault) (config : PluginSettings)
    (tagOfInterest : string) : list TagInfo :=
  Indexer.index wikilink (listDocuments v) tagOfInterest config.

(** The indexer with the input check of section 7 in front: an empty tag
    or a bare marker is rejected, any other tag gives the records. *)
Definition fetchTagData_checked (v : Vault) (config : PluginSettings)
    (tagOfInterest : string) : error + list TagInfo :=
  Indexer.index_checked wikilink (listDocuments v) tagOfInterest config.

Definition generateTagPageContent_model :
    PluginSettings → list TagInfo → string → string :=
  Generator.render verbatim.

Definition settings0 : PluginSettings := settings_view (loadSettings None).

Definition empty_world : World :=
  {| vault := {| files := ∅; folders := ∅ |}; shown := None; calls := [] |}.

(** ** Sample documents and worlds *)

Definition doc_inline : Document :=
  {| path := "A.md"; content := "See #proj today"; frontmatter := ∅ |}.

Definition doc_longer : Document :=
  {| path := "B.md"; content := "#projects kickoff"; frontmatter := ∅ |}.

Definition doc_query : Document :=
  {| path := "C.md"; content := "unrelated";
     frontmatter := {[ "tage-page-query" := Js.VString "#proj" ]} |}.

Definition doc_both : Document :=
  {| path := "D.md"; content := "first" +:+ Js.nl +:+ "then #proj.";
     frontmatter := {[ "tage-page-query" := Js.VString "#proj" ]} |}.

Definition doc_tagging : Document :=
  {| path := "journal.md"; content := "only #tagging here";
     frontmatter := ∅ |}.

Definition doc_tagging_query : Document :=
  {| path := "plans.md"; content := "only #tagging here";
     frontmatter := {[ "tage-page-query" := Js.VString "#tag" ]} |}.

Definition doc_tagpage : Document :=
  {| path := "Tags/#proj.md"; content := "generated";
     frontmatter := {[ "tage-page-query" := Js.VString "#proj" ]} |}.

Definition world_with_page : World :=
  {| vault := {| files := {[ "Tags/#proj.md" :=
                               {| fd_content := "kept as it is";
                                  fd_frontmatter := ∅ |} ]};
                 folders := {[ "Tags" ]} |};
     shown := None; calls := [] |}.

Definition world_with_marker_page : World :=
  {| vault := {| files := {[ "Tags/#.md" :=
                               {| fd_content := "an older page";
                                  fd_frontmatter := ∅ |} ]};
                 folders := {[ "Tags" ]} |};
     shown := None; calls := [] |}.

Definition notes_view : MarkdownView :=
  {| editor := Some "my own notes"; file := Some "Notes/HashTags.md" |}.

(** ** Settings in memory and on disk ([main.ts], lines 61-71, 215-226) *)

(** The plugin's [settings] object and the data file behind [loadData]
    and [saveData] ([None] while nothing was saved). *)
Record PluginState : Type := {
  st_settings : Js.object;
  st_data : option Js.object;
}.

(** [this.settings = Object.assign({}, DEFAULT_SETTINGS, await
    this.loadData())] *)
Definition loadSettings_run (st : PluginState) : PluginState :=
  {| st_settings := loadSettings (st_data st); st_data := st_data st |}.

(** [await this.saveData(this.settings)] *)
Definition saveSettings (st : PluginState) : PluginState :=
  {| st_settings := st_settings st; st_data := Some (st_settings st) |}.

(** The [onChange] callback of the settings tab:
    [this.plugin.settings.mySetting = value; await
    this.plugin.saveSettings()]. *)
Definition onChange (value : string) (st : PluginState) : PluginState :=
  saveSettings
    {| st_settings := <[ "mySetting" := Js.VString value ]> (st_settings st);
       st_data := st_data st |}.

Definition state_edited : PluginState :=
  {| st_settings := <[ "tagPageDir" := Js.VString "Index" ]> DEFAULT_SETTINGS;
     st_data := None |}.

Definition world_with_folder : World :=
  {| vault := {| files := ∅; folders := {[ "Tags"; "Tags/#proj.md" ]} |};
     shown := None; calls := [] |}.

Definition settings_nodir : PluginSettings :=
  settings_view (loadSettings (Some {[ "tagPageDir" := Js.VString "" ]})).

Definition diary_view : MarkdownView :=
  {| editor := Some "dear diary"; file := Some "diary.md" |}.

(** * Properties *)

Lemma DEFAULT_SETTINGS_proto : DEFAULT_SETTINGS !! Js.proto = None.
Proof. vm_compute. reflexivity. Qed.

Lemma assign_defaults :
  Js.assign1 (∅, true) (Some DEFAULT_SETTINGS) = (DEFAULT_SETTINGS, true).
Proof.
  unfold Js.assign1; simpl.
  rewrite (delete_id _ _ DEFAULT_SETTINGS_proto), (right_id_L ∅ (∪)).
  by rewrite DEFAULT_SETTINGS_proto.
Qed.

Lemma assign_stored (stored : Js.object) :
  (Js.assign1 (DEFAULT_SETTINGS, true) (Some stored)).1
  = delete Js.proto stored ∪ DEFAULT_SETTINGS.
Proof.
  unfold Js.assign1; simpl.
  by rewrite (bool_decide_eq_true_2 _ DEFAULT_SETTINGS_proto).
Qed.

Lemma loadSettings_stored (stored : Js.object) :
  loadSettings (Some stored) = delete Js.proto stored ∪ DEFAULT_SETTINGS.
Proof.
  unfold loadSettings, Js.Object_assign.
  change (foldl Js.assign1 (∅, true) [Some DEFAULT_SETTINGS; Some stored])
    with (Js.assign1 (Js.assign1 (∅, true) (Some DEFAULT_SETTINGS))
            (Some stored)).
  rewrite assign_defaults. apply assign_stored.
Qed.

Lemma loadSettings_lookup (stored : Js.object) (k : string) :
  loadSettings (Some stored) !! k =
  if decide (k = Js.proto) then None
  else match stored !! k with
       | Some v => Some v
       | None => DEFAULT_SETTINGS !! k
       end.
Proof.
  rewrite loadSettings_stored.
  destruct (decide (k = Js.proto)) as [->|Hk].
  - apply lookup_union_None. split; [apply lookup_delete_eq|].
    apply DEFAULT_SETTINGS_proto.
  - destruct (stored !! k) as [v|] eqn:Hs.
    + apply lookup_union_Some_l. by rewrite lookup_delete_ne.
    + rewrite lookup_union_r; [done|]. by rewrite lookup_delete_ne.
Qed.

Lemma loadSettings_null : loadSettings None = DEFAULT_SETTINGS.
Proof.
  unfold loadSettings, Js.Object_assign.
  change (foldl Js.assign1 (∅, true) [Some DEFAULT_SETTINGS; None])
    with (Js.assign1 (Js.assign1 (∅, true) (Some DEFAULT_SETTINGS)) None).
  by rewrite assign_defaults.
Qed.

Lemma DEFAULT_SETTINGS_documented (k : string) (v : Js.value) :
  documented_default k = Some v → DEFAULT_SETTINGS !! k = Some v.
Proof.
  unfold documented_default.
  repeat match goal with
         | |- context [String.eqb k ?s] =>
             destruct (String.eqb_spec k s) as [->|?];
             [intros [= <-]; vm_compute; reflexivity|]
         end.
  discriminate.
Qed.

(** The documented fields of the configuration surface. *)
Lemma loadSettings_documented (stored : Js.object) (f : string) (v : Js.value) :
  documented_default f = Some v →
  loadSettings (Some stored) !! f
  = match stored !! f with Some x => Some x | None => Some v end.
Proof.
  intros Hf. rewrite loadSettings_lookup.
  rewrite decide_False.
  - rewrite (DEFAULT_SETTINGS_documented f v Hf). done.
  - intros ->. by vm_compute in Hf.
Qed.

(** C9: for each of the four documented fields, loading gives the stored
    value when the stored record has the field and the documented default
    when it omits it: [tagPageDir = "Tags"],
    [frontmatterQueryProperty = "tage-page-query"],
    [bulletedSubItems = true], [includeLines = true]. The same holds for
    every key but [__proto__], which [Object.assign] never takes over as a
    property; with no stored record at all the defaults are the settings. *)
Theorem C9_loadSettings_defaults (stored : Js.object) (k : string) :
  Forall (λ f, loadSettings (Some stored) !! f
               = match stored !! f with
                 | Some v => Some v
                 | None => documented_default f
                 end)
    ["tagPageDir"; "frontmatterQueryProperty"; "bulletedSubItems";
     "includeLines"]
  ∧ loadSettings (Some stored) !! k
    = (if decide (k = Js.proto) then None
       else match stored !! k with
            | Some v => Some v
            | None => DEFAULT_SETTINGS !! k
            end)
  ∧ loadSettings None = DEFAULT_SETTINGS
  ∧ documented_default "tagPageDir" = Some (Js.VString "Tags")
  ∧ documented_default "frontmatterQueryProperty"
    = Some (Js.VString "tage-page-query")
  ∧ documented_default "bulletedSubItems" = Some (Js.VBool true)
  ∧ documented_default "includeLines" = Some (Js.VBool true).
Proof.
  split.
  - repeat (apply Forall_cons; split;
            [erewrite loadSettings_documented by reflexivity;
             by destruct (stored !! _)|]).
    apply Forall_nil_2.
  - split; [apply loadSettings_lookup|].
    split; [apply loadSettings_null|]. done.
Qed.

(** A stored [__proto__] is not taken over, the other keys are. *)
Example loadSettings_proto :
  loadSettings (Some {[ Js.proto := Js.VString "x";
                        "tagPageDir" := Js.VString "Index" ]})
  = <[ "tagPageDir" := Js.VString "Index" ]> DEFAULT_SETTINGS.
Proof. vm_compute. reflexivity. Qed.

(** A stored record that only sets the directory. *)
Example loadSettings_partial :
  settings_view (loadSettings (Some {[ "tagPageDir" := Js.VString "Index" ]}))
  = {| mySetting := "default"; tagPageDir := "Index";
       frontmatterQueryProperty := "tage-page-query";
       bulletedSubItems := Some true; includeLines := Some true |}.
Proof. vm_compute. reflexivity. Qed.

(** ** Strings *)

#[local] Arguments String.append !_ _ / : simpl nomatch.

Section StringFacts.

Lemma append_assoc (a b c : string) : (a +:+ b) +:+ c = a +:+ b +:+ c.
Proof. induction a as [|x a IH]; simpl; [done|by rewrite IH]. Qed.

Lemma append_empty_r (a : string) : a +:+ "" = a.
Proof. induction a as [|x a IH]; simpl; [done|by rewrite IH]. Qed.

Lemma append_inv_head (a b c : string) : a +:+ b = a +:+ c → b = c.
Proof. induction a as [|x a IH]; simpl; [done|]. intros [= H]. auto. Qed.

Lemma append_length (a b : string) :
  String.length (a +:+ b) = String.length a + String.length b.
Proof. induction a as [|x a IH]; simpl; [done|by rewrite IH]. Qed.

Lemma prefix_rest_Some (t s r : string) :
  Js.prefix_rest t s = Some r ↔ s = t +:+ r.
Proof.
  revert s. induction t as [|a t IH]; intros s; simpl.
  - split; [by intros [= ->]|by intros ->].
  - destruct s as [|b s]; [by split|].
    destruct (Ascii.eqb_spec a b) as [->|Hab].
    + rewrite IH. split; [by intros ->|by intros [= ->]].
    + split; [done|]. intros [= ? ?]. by destruct Hab.
Qed.

Lemma prefix_rest_append (t r : string) : Js.prefix_rest t (t +:+ r) = Some r.
Proof. by apply prefix_rest_Some. Qed.

Lemma startsWith_append (t r : string) : Js.startsWith (t +:+ r) t = true.
Proof. unfold Js.startsWith. by rewrite prefix_rest_append. Qed.

Lemma startsWith_true (s t : string) :
  Js.startsWith s t = true ↔ ∃ r, s = t +:+ r.
Proof.
  unfold Js.startsWith.
  destruct (Js.prefix_rest t s) as [r|] eqn:H.
  - apply prefix_rest_Some in H. split; eauto.
  - split; [done|]. intros [r Hr]. apply prefix_rest_Some in Hr. congruence.
Qed.

Lemma includes_true (s t : string) :
  Js.includes s t = true ↔ ∃ pre post, s = pre +:+ t +:+ post.
Proof.
  induction s as [|c s IH]; simpl.
  - rewrite orb_false_r, startsWith_true. split.
    + intros [r ->]. by exists "", r.
    + intros [pre [post H]]. destruct pre; [by exists post|done].
  - rewrite orb_true_iff, IH, startsWith_true. split.
    + intros [[r ->]|(pre & post & ->)]; [by exists "", r|].
      by exists (String c pre), post.
    + intros (pre & post & H). destruct pre as [|c' pre]; simpl in H.
      * left. by exists post.
      * injection H as -> ->. right. by exists pre, post.
Qed.

End StringFacts.

Example lines_two : Js.lines ("a" +:+ Js.nl +:+ "b") = ["a"; "b"].
Proof. reflexivity. Qed.

Example lines_trailing : Js.lines ("a" +:+ Js.nl) = ["a"; ""].
Proof. reflexivity. Qed.

Example includes_inside : Js.includes "Notes/HashTags.md" "Tags" = true.
Proof. reflexivity. Qed.

Example includes_empty : Js.includes "" "" = true.
Proof. reflexivity. Qed.

(** ** Normalizing the tag *)

Lemma normalizeTag_marked (t : string) : normalizeTag ("#" +:+ t) = "#" +:+ t.
Proof. unfold normalizeTag. by rewrite startsWith_append. Qed.

Lemma normalizeTag_unmarked (t : string) :
  Js.startsWith t "#" = false → normalizeTag t = "#" +:+ t.
Proof. unfold normalizeTag. by intros ->. Qed.

Lemma normalizeTag_startsWith (t : string) :
  Js.startsWith (normalizeTag t) "#" = true.
Proof.
  unfold normalizeTag. destruct (Js.startsWith t "#") eqn:H; [done|].
  apply startsWith_append.
Qed.

Lemma normalizeTag_idemp (t : string) :
  normalizeTag (normalizeTag t) = normalizeTag t.
Proof.
  unfold normalizeTag at 1. by rewrite normalizeTag_startsWith.
Qed.

(** ** The create command *)

Section CreateTagPageAsync.

Variable fetchTagData :
  Vault → PluginSettings → string → error + list TagInfo.
Variable generateTagPageContent :
  PluginSettings → list TagInfo → string → error + string.
Variable settings : PluginSettings.

Local Abbreviation createTagPage :=
  (Plugin.Async.createTagPage fetchTagData generateTagPageContent settings).
Local Abbreviation pagePath := (Plugin.tagPagePath settings).

Lemma tagPagePath_ne_dir (t : string) : pagePath t ≠ tagPageDir settings.
Proof.
  unfold Plugin.tagPagePath. intros H.
  apply (f_equal String.length) in H.
  rewrite append_length in H. simpl in H. lia.
Qed.

Lemma lookup_path_new_folder (v : Vault) (p dir : string) :
  p ≠ dir → Host.lookup_path v p = None →
  Host.lookup_path {| files := files v; folders := {[ dir ]} ∪ folders v |} p
  = None.
Proof.
  unfold Host.lookup_path; simpl. intros Hne.
  destruct (files v !! p); [done|].
  destruct (decide (p ∈ folders v)); [done|]. intros _.
  rewrite decide_False; [done|].
  rewrite elem_of_union, elem_of_singleton. by intros [?|?].
Qed.

Ltac run_chain :=
  unfold Plugin.Async.createTagPage, Plugin.Async.refreshTagPageContent,
    Host.getAbstractFileByPath, Host.adapter_exists, Plugin.Async.fetch,
    Plugin.Async.generate, get_vault, record, settle, mbind, M_bind, mret,
    M_ret.

Lemma async_existing (tag : string) (w : World) (f : TAbstractFile) :
  Host.lookup_path (vault w) (pagePath (normalizeTag tag)) = Some f →
  createTagPage tag w = inr (tt, Plugin.opened_world f w).
Proof. intros H. run_chain. by rewrite H. Qed.

Lemma async_fetch_rejects (tag : string) (w : World) (e : error) :
  Host.lookup_path (vault w) (pagePath (normalizeTag tag)) = None →
  fetchTagData (vault w) settings (normalizeTag tag) = inl e →
  createTagPage tag w = inl (e, Plugin.fetched_world (normalizeTag tag) w).
Proof. intros H He. run_chain. rewrite H. simpl. by rewrite He. Qed.

Lemma async_generate_rejects (tag : string) (w : World) (l : list TagInfo)
    (e : error) :
  Host.lookup_path (vault w) (pagePath (normalizeTag tag)) = None →
  fetchTagData (vault w) settings (normalizeTag tag) = inr l →
  generateTagPageContent settings l (normalizeTag tag) = inl e →
  createTagPage tag w = inl (e, Plugin.scanned_world (normalizeTag tag) w).
Proof.
  intros H Hl He. run_chain. rewrite H. simpl. rewrite Hl, He.
  unfold Plugin.scanned_world. simpl. by rewrite <- (assoc_L (++)).
Qed.

Lemma async_fresh (tag : string) (w : World) (l : list TagInfo)
    (data : string) :
  Host.lookup_path (vault w) (pagePath (normalizeTag tag)) = None →
  fetchTagData (vault w) settings (normalizeTag tag) = inr l →
  generateTagPageContent settings l (normalizeTag tag) = inr data →
  createTagPage tag w
  = inr (tt, Plugin.page_created settings data (normalizeTag tag) w).
Proof.
  intros H Hl Hdata. run_chain. rewrite H. simpl. rewrite Hl, Hdata.
  unfold Plugin.page_created. simpl.
  destruct (bool_decide (is_Some (Host.lookup_path (vault w)
                                    (tagPageDir settings)))) eqn:Hdir; simpl.
  - unfold Host.create, reject; simpl. rewrite H. unfold Host.openFile; simpl.
    by rewrite <- !(assoc_L (++)).
  - unfold Host.createFolder; simpl. rewrite Hdir.
    unfold Host.create, reject; simpl.
    rewrite lookup_path_new_folder by (done || apply tagPagePath_ne_dir).
    unfold Host.openFile; simpl. by rewrite <- !(assoc_L (++)).
Qed.

End CreateTagPageAsync.

Section CreateTagPage.

Variable fetchTagData : Vault → PluginSettings → string → list TagInfo.
Variable generateTagPageContent :
  PluginSettings → list TagInfo → string → string.
Variable settings : PluginSettings.

Local Abbreviation createTagPage :=
  (Plugin.createTagPage fetchTagData generateTagPageContent settings).
Local Abbreviation pagePath := (Plugin.tagPagePath settings).
Local Abbreviation created_world :=
  (Plugin.created_world fetchTagData generateTagPageContent settings).
Local Abbreviation opened_world := Plugin.opened_world.

Lemma createTagPage_existing (tag : string) (w : World) (f : TAbstractFile) :
  Host.lookup_path (vault w) (pagePath (normalizeTag tag)) = Some f →
  createTagPage tag w = inr (tt, opened_world f w).
Proof. apply async_existing. Qed.

Lemma createTagPage_fresh (tag : string) (w : World) :
  Host.lookup_path (vault w) (pagePath (normalizeTag tag)) = None →
  createTagPage tag w = inr (tt, created_world (normalizeTag tag) w).
Proof.
  intros H. unfold Plugin.createTagPage, Plugin.created_world.
  by eapply async_fresh.
Qed.

(** Whatever the tag and the world, the command completes when the
    helpers resolve. *)
Lemma createTagPage_completes (tag : string) (w : World) :
  ∃ w', createTagPage tag w = inr (tt, w').
Proof.
  destruct (Host.lookup_path (vault w) (pagePath (normalizeTag tag)))
    as [f|] eqn:H.
  - eexists. by apply createTagPage_existing.
  - eexists. by apply createTagPage_fresh.
Qed.

Lemma createTagPage_normalized (tag : string) (w : World) :
  createTagPage (normalizeTag tag) w = createTagPage tag w.
Proof.
  unfold Plugin.createTagPage, Plugin.Async.createTagPage.
  by rewrite normalizeTag_idemp.
Qed.

End CreateTagPage.

(** ** The refresh callback *)

Section Refresh.

Variable fetchTagData : Vault → PluginSettings → string → list TagInfo.
Variable generateTagPageContent :
  PluginSettings → list TagInfo → string → string.
Variable settings : PluginSettings.

Local Abbreviation refreshTagPageContent :=
  (Plugin.refreshTagPageContent fetchTagData generateTagPageContent settings).
Local Abbreviation refresh_guard := (Plugin.refresh_guard settings).
Local Abbreviation scanned_world := Plugin.scanned_world.

Lemma refresh_run (leaf : MarkdownView) (tag : string) (w : World) :
  refreshTagPageContent (Some leaf) tag w =
  inr (Some (if refresh_guard leaf
             then {| editor := Some (generateTagPageContent settings
                                       (fetchTagData (vault w) settings tag)
                                       tag);
                     file := file leaf |}
             else leaf),
       scanned_world tag w).
Proof.
  unfold Plugin.refreshTagPageContent, Plugin.Async.refreshTagPageContent,
    Plugin.refresh_guard, Plugin.Async.fetch, Plugin.Async.generate,
    get_vault, record, settle, resolves, mbind, M_bind, mret, M_ret,
    Plugin.scanned_world; simpl.
  rewrite <- (assoc_L (++)); simpl.
  destruct (editor leaf) as [txt|]; [|done].
  destruct (file leaf) as [currentFile|]; [|done].
  by destruct (Js.includes currentFile (tagPageDir settings)).
Qed.

(** The editor is left alone unless the path of the shown file contains
    the directory name somewhere. *)
Lemma refresh_keeps_editor (leaf : MarkdownView) (tag : string) (w : World)
    (p : string) :
  file leaf = Some p →
  (∀ pre post, p ≠ pre +:+ tagPageDir settings +:+ post) →
  ∃ w', refreshTagPageContent (Some leaf) tag w = inr (Some leaf, w').
Proof.
  intros Hp Hno. rewrite refresh_run. eexists.
  unfold Plugin.refresh_guard. rewrite Hp.
  destruct (editor leaf); [|done].
  destruct (Js.includes p (tagPageDir settings)) eqn:Hinc; [|done].
  apply includes_true in Hinc as (pre & post & ->). by destruct (Hno pre post).
Qed.

(** It is replaced as soon as the directory name occurs anywhere in the
    path. *)
Lemma refresh_overwrites (txt pre post tag : string) (w : World) :
  let p := pre +:+ tagPageDir settings +:+ post in
  ∃ w', refreshTagPageContent
          (Some {| editor := Some txt; file := Some p |}) tag w
        = inr (Some {| editor := Some (generateTagPageContent settings
                                         (fetchTagData (vault w) settings tag)
                                         tag);
                       file := Some p |}, w').
Proof.
  intros p. rewrite refresh_run. eexists.
  unfold Plugin.refresh_guard; simpl.
  replace (Js.includes p (tagPageDir settings)) with true; [done|].
  symmetry. apply includes_true. by exists pre, post.
Qed.

End Refresh.

(** ** The order on paths *)

Lemma path_le_trans (a b c : string) : path_le a b → path_le b c → path_le a c.
Proof.
  unfold path_le, String.leb. revert b c.
  induction a as [|x a IH]; intros [|y b] [|z c]; simpl; try done.
  unfold Ascii.compare.
  destruct (N.compare_spec (Ascii.N_of_ascii x) (Ascii.N_of_ascii y)),
           (N.compare_spec (Ascii.N_of_ascii y) (Ascii.N_of_ascii z)),
           (N.compare_spec (Ascii.N_of_ascii x) (Ascii.N_of_ascii z));
    try done; try lia.
  apply IH.
Qed.

#[local] Instance path_le_transitive : Transitive path_le := path_le_trans.

#[local] Instance path_le_total : Total path_le.
Proof. intros a b. apply String.leb_total. Qed.

#[local] Instance path_le_antisymm : AntiSymm (=) path_le.
Proof. intros a b. apply String.leb_antisym. Qed.

#[local] Instance keyed_le_transitive : Transitive Indexer.keyed_le.
Proof. intros x y z. unfold Indexer.keyed_le. apply path_le_trans. Qed.

#[local] Instance keyed_le_total : Total Indexer.keyed_le.
Proof. intros x y. unfold Indexer.keyed_le. apply (total path_le). Qed.

Lemma NoDup_fmap_elem_inj {A B} (f : A → B) (l : list A) (x y : A) :
  NoDup (f <$> l) → x ∈ l → y ∈ l → f x = f y → x = y.
Proof.
  induction l as [|a l IH]; simpl; [by intros _ ?%elem_of_nil|].
  rewrite NoDup_cons, !elem_of_cons, list_elem_of_fmap.
  intros [Ha Hl] [->|Hx] [->|Hy] Hf; [done| | |by apply IH].
  - destruct Ha. eauto.
  - destruct Ha. eauto.
Qed.

Lemma filter_none {A} (P : A → Prop) `{!∀ x, Decision (P x)} (l : list A) :
  (∀ x, x ∈ l → ¬ P x) → filter P l = [].
Proof.
  induction l as [|a l IH]; intros Hl; [done|].
  rewrite filter_cons_False by (apply Hl; left).
  apply IH. intros x Hx. apply Hl. by right.
Qed.

(** ** The indexer: order of the result *)

Section IndexerOrder.

Variable fileLinkOf : string → string.
Variable config : PluginSettings.

Local Abbreviation index_doc := (Indexer.index_doc fileLinkOf config).
Local Abbreviation scan := (Indexer.scan fileLinkOf config).
Local Abbreviation index_keyed docs tag :=
  (Indexer.index_keyed fileLinkOf docs tag config).
Local Abbreviation index docs tag :=
  (Indexer.index fileLinkOf docs tag config).

Lemma elem_of_scan (tag : string) (docs : list Document) (x : string * TagInfo) :
  x ∈ scan tag docs ↔
  ∃ d, d ∈ docs ∧ path d = x.1 ∧ index_doc tag d = Some x.2.
Proof.
  unfold Indexer.scan. rewrite list_elem_of_omap. split.
  - intros (d & Hd & Hx). exists d. split; [done|].
    destruct (index_doc tag d) as [ti|]; simplify_eq/=. done.
  - intros (d & Hd & Hp & Hti). exists d. split; [done|].
    rewrite Hti. simpl. destruct x; simpl in *. by subst.
Qed.

Lemma index_keyed_scan (docs : list Document) (tag : string) :
  index_keyed docs tag ≡ₚ scan (normalizeTag tag) docs.
Proof. apply merge_sort_Permutation. Qed.

Lemma elem_of_index_keyed (docs : list Document) (tag : string)
    (x : string * TagInfo) :
  x ∈ index_keyed docs tag ↔
  ∃ d, d ∈ docs ∧ path d = x.1 ∧ index_doc (normalizeTag tag) d = Some x.2.
Proof. by rewrite index_keyed_scan, elem_of_scan. Qed.

Lemma index_keyed_StronglySorted (docs : list Document) (tag : string) :
  StronglySorted Indexer.keyed_le (index_keyed docs tag).
Proof. apply (StronglySorted_merge_sort _). Qed.

Lemma index_paths_sorted (docs : list Document) (tag : string) :
  StronglySorted path_le (index_keyed docs tag).*1.
Proof.
  apply (StronglySorted_fmap fst Indexer.keyed_le);
    [by intros x y|apply index_keyed_StronglySorted].
Qed.

Lemma scan_key_inj (tag : string) (docs : list Document)
    (x y : string * TagInfo) :
  NoDup (path <$> docs) →
  x ∈ scan tag docs → y ∈ scan tag docs → x.1 = y.1 → x = y.
Proof.
  intros Hnd (d & Hd & Hp & Hti)%elem_of_scan (e & He & Hq & Hsi)%elem_of_scan
    Hxy.
  assert (d = e) as <-.
  { apply (NoDup_fmap_elem_inj path docs); [done..|congruence]. }
  destruct x, y; simpl in *. congruence.
Qed.

Lemma scan_Permutation (tag : string) (docs docs' : list Document) :
  docs ≡ₚ docs' → scan tag docs ≡ₚ scan tag docs'.
Proof. intros H. unfold Indexer.scan. by rewrite H. Qed.

(** The sorted result does not depend on the order of the scan. *)
Lemma index_keyed_Permutation (docs docs' : list Document) (tag : string) :
  NoDup (path <$> docs) → docs ≡ₚ docs' →
  index_keyed docs' tag = index_keyed docs tag.
Proof.
  intros Hnd Hperm.
  apply (StronglySorted_unique_strong Indexer.keyed_le);
    [|apply index_keyed_StronglySorted..|].
  - intros x y Hx Hy Hxy Hyx.
    apply (scan_key_inj (normalizeTag tag) docs); [done| | |].
    + rewrite index_keyed_scan in Hx.
      by rewrite (scan_Permutation _ _ _ Hperm).
    + by rewrite index_keyed_scan in Hy.
    + by apply (anti_symm path_le).
  - by rewrite !index_keyed_scan, (scan_Permutation _ _ _ Hperm).
Qed.

Lemma index_Permutation (docs docs' : list Document) (tag : string) :
  NoDup (path <$> docs) → docs ≡ₚ docs' → index docs' tag = index docs tag.
Proof.
  intros Hnd Hperm. unfold Indexer.index. f_equal.
  by apply index_keyed_Permutation.
Qed.

(** A matching document is listed once. *)
Lemma scan_filter_key (tag : string) (docs : list Document) (d : Document)
    (ti : TagInfo) :
  NoDup (path <$> docs) → d ∈ docs → index_doc tag d = Some ti →
  filter (λ x, x.1 = path d) (scan tag docs) = [(path d, ti)].
Proof.
  intros Hnd Hd Hti. induction docs as [|e docs IH]; [by inv Hd|].
  simpl in Hnd. apply NoDup_cons in Hnd as [He Hnd].
  apply elem_of_cons in Hd as [<-|Hd].
  - unfold Indexer.scan; simpl. rewrite Hti; simpl.
    rewrite filter_cons_True by done. f_equal.
    apply filter_none. intros x Hx Hk.
    apply elem_of_scan in Hx as (e & Hin & Hp & _).
    apply He, list_elem_of_fmap. exists e. split; [congruence|done].
  - assert (path e ≠ path d) as Hne.
    { intros Heq. apply He, list_elem_of_fmap. by exists d. }
    unfold Indexer.scan; simpl. destruct (index_doc tag e) as [si|]; simpl.
    + rewrite filter_cons_False by done. by apply IH.
    + by apply IH.
Qed.

Lemma index_keyed_once (docs : list Document) (tag : string) (d : Document)
    (ti : TagInfo) :
  NoDup (path <$> docs) → d ∈ docs →
  index_doc (normalizeTag tag) d = Some ti →
  filter (λ x, x.1 = path d) (index_keyed docs tag) = [(path d, ti)].
Proof.
  intros Hnd Hd Hti.
  apply Permutation_singleton_r.
  rewrite index_keyed_scan.
  by rewrite (scan_filter_key _ docs d ti).
Qed.

(** A document that yields no record has no entry. *)
Lemma index_keyed_absent (docs : list Document) (tag : string) (d : Document) :
  NoDup (path <$> docs) → d ∈ docs →
  index_doc (normalizeTag tag) d = None →
  filter (λ x, x.1 = path d) (index_keyed docs tag) = [].
Proof.
  intros Hnd Hd Hnone. apply filter_none. intros x Hx Hkey.
  apply elem_of_index_keyed in Hx as (e & He & Hp & Hti).
  assert (e = d) as ->.
  { apply (NoDup_fmap_elem_inj path docs); [done..|congruence]. }
  congruence.
Qed.

(** A document that yields no record leaves the result as it is. *)
Lemma index_keyed_skip (l1 l2 : list Document) (tag : string) (d : Document) :
  index_doc (normalizeTag tag) d = None →
  index_keyed (l1 ++ d :: l2) tag = index_keyed (l1 ++ l2) tag.
Proof.
  intros Hd. unfold Indexer.index_keyed, Indexer.scan.
  rewrite !omap_app; simpl. by rewrite Hd.
Qed.

End IndexerOrder.

(** ** The indexer: the inline rule *)

Section InlineRule.

(** Any class of tag characters that leaves out the line feed. *)
Variable continues : Ascii.ascii → bool.
Hypothesis continues_LF : continues Js.LF = false.

Local Abbreviation whole_token_end := (Indexer.whole_token_end continues).
Local Abbreviation only_as_prefix := (Indexer.only_as_prefix continues).
Local Abbreviation line_end := Js.line_end.

Lemma token_at_occurrence (tag s : string) :
  Indexer.token_at continues tag s = true →
  ∃ rest, s = tag +:+ rest ∧ whole_token_end rest.
Proof.
  unfold Indexer.token_at.
  destruct (Js.prefix_rest tag s) as [rest|] eqn:H; [|done].
  apply prefix_rest_Some in H. intros Hc. exists rest. split; [done|].
  destruct rest as [|c r]; [by left|right].
  exists c, r. split; [done|]. by apply negb_true_iff.
Qed.

Lemma has_token_occurrence (tag s : string) :
  Indexer.has_token continues tag s = true →
  ∃ pre rest, s = pre +:+ tag +:+ rest ∧ whole_token_end rest.
Proof.
  induction s as [|c s IH]; simpl.
  - rewrite orb_false_r. intros (rest & -> & H)%token_at_occurrence.
    by exists "", rest.
  - intros [(rest & -> & H)%token_at_occurrence|Hs]%orb_true_iff.
    + by exists "", rest.
    + destruct (IH Hs) as (pre & rest & -> & H).
      by exists (String c pre), rest.
Qed.

Lemma occurrence_has_token (tag pre rest : string) :
  whole_token_end rest → Indexer.has_token continues tag (pre +:+ tag +:+ rest) = true.
Proof.
  intros H. induction pre as [|c pre IH]; simpl.
  - assert (Indexer.token_at continues tag (tag +:+ rest) = true) as Ht.
    { unfold Indexer.token_at. rewrite prefix_rest_append.
      destruct H as [->|(c & r & -> & Hc)]; [done|]. by rewrite Hc. }
    destruct (tag +:+ rest); simpl; by rewrite Ht.
  - rewrite IH. apply orb_true_r.
Qed.

Lemma lines_head (s : string) :
  ∃ l ls B, Js.lines s = l :: ls ∧ s = l +:+ B ∧ line_end B.
Proof.
  induction s as [|c s (l & ls & B & Hl & Hs & HB)]; simpl.
  - exists "", [], "". repeat split. by left.
  - destruct (Ascii.eqb_spec c Js.LF) as [->|Hc].
    + exists "", (Js.lines s), (String Js.LF s). repeat split.
      right. by exists s.
    + rewrite Hl. exists (String c l), ls, B. simpl. by rewrite <- Hs.
Qed.

Lemma lines_elem (l s : string) :
  l ∈ Js.lines s → ∃ A B, s = A +:+ l +:+ B ∧ line_end B.
Proof.
  induction s as [|c s IH]; simpl.
  - intros ->%list_elem_of_singleton. exists "", "". split; [done|by left].
  - destruct (Ascii.eqb_spec c Js.LF) as [->|Hc].
    + intros [->|Hl]%elem_of_cons.
      * exists "", (String Js.LF s). split; [done|]. right. by exists s.
      * destruct (IH Hl) as (A & B & -> & HB). by exists (String Js.LF A), B.
    + destruct (lines_head s) as (l0 & ls & B0 & Hl0 & Hs0 & HB0).
      rewrite Hl0 in IH |- *. intros [->|Hl]%elem_of_cons.
      * exists "", B0. simpl. by rewrite <- Hs0.
      * destruct (IH ltac:(by right)) as (A & B & -> & HB).
        by exists (String c A), B.
Qed.

Lemma continued_everywhere_spec (tag text : string) :
  Indexer.continued_everywhere continues tag text = true → only_as_prefix tag text.
Proof.
  intros H pre. revert text H.
  induction pre as [|c pre IH]; intros text H rest ->.
  - assert (match Js.prefix_rest tag (tag +:+ rest) with
            | Some EmptyString => false
            | Some (String c _) => continues c
            | None => true
            end = true) as Hhd.
    { simpl in H. destruct (tag +:+ rest); simpl in H;
        by apply andb_true_iff in H as [? _]. }
    rewrite prefix_rest_append in Hhd.
    destruct rest as [|c r]; [done|]. by exists c, r.
  - simpl in H. apply andb_true_iff in H as [_ H]. by apply (IH _ H).
Qed.

Lemma inline_matches_none (tag text : string) :
  only_as_prefix tag text → Indexer.inline_matches continues tag text = [].
Proof.
  intros Hpre. apply filter_none. intros l Hl Htok.
  apply lines_elem in Hl as (A & B & -> & HB).
  apply has_token_occurrence in Htok as (pre & rest & -> & Hrest).
  destruct (Hpre (A +:+ pre) (rest +:+ B)) as (c & rest' & Heq & Hc).
  { by rewrite !append_assoc. }
  destruct Hrest as [->|(c0 & r & -> & Hc0)]; simpl in Heq.
  - destruct HB as [->|[B' ->]]; [done|].
    injection Heq as <- _. by rewrite continues_LF in Hc.
  - injection Heq as <- _. congruence.
Qed.

(** A line with a whole-token occurrence is kept. *)
Lemma inline_matches_line (tag pre rest : string) :
  whole_token_end rest →
  Js.lines (pre +:+ tag +:+ rest) = [pre +:+ tag +:+ rest] →
  Indexer.inline_matches continues tag (pre +:+ tag +:+ rest) = [pre +:+ tag +:+ rest].
Proof.
  intros H Hl. unfold Indexer.inline_matches. rewrite Hl.
  rewrite filter_cons_True by by apply occurrence_has_token. done.
Qed.

End InlineRule.

Lemma LF_not_tag_char : Indexer.is_tag_char Js.LF = false.
Proof. reflexivity. Qed.

(** ** The generator *)

Section Render.

Variable escape : string → string.
Variable config : PluginSettings.

Local Abbreviation render := (Generator.render escape config).

Lemma render_empty (tag : string) :
  render [] tag
  = Generator.heading tag +:+ Js.nl +:+ Generator.no_matches_notice +:+ Js.nl.
Proof. reflexivity. Qed.

Lemma render_body (tis : list TagInfo) (tag : string) :
  ∃ body, render tis tag = Generator.heading tag +:+ Js.nl +:+ body
          ∧ body ≠ "".
Proof.
  destruct tis as [|ti tis].
  - by exists (Generator.no_matches_notice +:+ Js.nl).
  - eexists. split; [reflexivity|].
    destruct tis as [|ti' tis]; simpl; done.
Qed.

Lemma render_not_bare (tis : list TagInfo) (tag : string) :
  render tis tag ≠ Generator.heading tag ∧
  render tis tag ≠ Generator.heading tag +:+ Js.nl.
Proof.
  destruct (render_body tis tag) as (body & -> & Hbody). split.
  - intros H. rewrite <- (append_empty_r (Generator.heading tag)) in H at 2.
    by apply append_inv_head in H.
  - intros H. apply append_inv_head in H.
    rewrite <- (append_empty_r Js.nl) in H at 2.
    by apply append_inv_head in H.
Qed.

Lemma render_normalized (tis : list TagInfo) (tag : string) :
  render tis (normalizeTag tag) = render tis tag.
Proof.
  unfold Generator.render, Generator.heading.
  by rewrite normalizeTag_idemp.
Qed.

End Render.

(** * The specification's statements *)

(** The example of section 8: A matches inline, C through its
    frontmatter, B only holds a longer token; A is listed before C. *)
Example index_section8 :
  Indexer.index wikilink [doc_query; doc_longer; doc_inline] "proj" settings0
  = [ {| fileLink := "[[A.md]]"; tagMatches := ["See #proj today"] |};
      {| fileLink := "[[C.md]]";
         tagMatches := ["matched via frontmatter query"] |} ].
Proof. vm_compute. reflexivity. Qed.

Example inline_matches_whole_token :
  Indexer.inline_matches Indexer.is_tag_char "#work" ("at #work" +:+ Js.nl +:+ "#working late"
                                  +:+ Js.nl +:+ "(#work)")
  = ["at #work"; "(#work)"].
Proof. vm_compute. reflexivity. Qed.




(** C2: the result of [index] lists the matching documents by ascending
    path, and any two listings of the same set of documents (paths being
    unique) give the same sequence. *)
Theorem C2_index_sorted_any_order (fileLinkOf : string → string)
    (config : PluginSettings) (tag : string) (docs docs' : list Document) :
  NoDup (path <$> docs) → docs ≡ₚ docs' →
  Indexer.index fileLinkOf docs' tag config
  = Indexer.index fileLinkOf docs tag config
  ∧ Indexer.index fileLinkOf docs tag config
    = (Indexer.index_keyed fileLinkOf docs tag config).*2
  ∧ StronglySorted path_le (Indexer.index_keyed fileLinkOf docs tag config).*1
  ∧ (∀ p ti, (p, ti) ∈ Indexer.index_keyed fileLinkOf docs tag config ↔
             ∃ d, d ∈ docs ∧ path d = p ∧
                  Indexer.index_doc fileLinkOf config (normalizeTag tag) d
                  = Some ti).
Proof.
  intros Hnd Hperm. split; [by apply index_Permutation|].
  split; [done|]. split; [apply index_paths_sorted|].
  intros p ti. apply (elem_of_index_keyed _ _ _ _ (p, ti)).
Qed.

Lemma C2_witness :
  Indexer.index wikilink [doc_longer; doc_inline; doc_query] "proj" settings0
  = Indexer.index wikilink [doc_query; doc_longer; doc_inline] "proj" settings0
  ∧ StronglySorted path_le
      (Indexer.index_keyed wikilink [doc_query; doc_longer; doc_inline]
         "proj" settings0).*1.
Proof.
  assert (NoDup (path <$> [doc_query; doc_longer; doc_inline])) as Hnd.
  { apply (bool_decide_unpack _). vm_compute. reflexivity. }
  assert ([doc_query; doc_longer; doc_inline]
          ≡ₚ [doc_longer; doc_inline; doc_query]) as Hperm.
  { apply (Permutation_cons_append [doc_longer; doc_inline]). }
  destruct (C2_index_sorted_any_order wikilink settings0 "proj" _ _ Hnd Hperm)
    as (Heq & _ & Hsorted & _).
  split; [exact Heq|exact Hsorted].
Defined.

(** C3: a tag given without the marker and the same tag given with it are
    normalized to the one form with a single leading [#], and the create
    command, the indexer and the generator do the same for both. *)
Theorem C3_marker_optional (t : string) :
  Js.startsWith t "#" = false →
  normalizeTag t = "#" +:+ t
  ∧ normalizeTag ("#" +:+ t) = "#" +:+ t
  ∧ (∀ fetchTagData generateTagPageContent settings w,
       Plugin.createTagPage fetchTagData generateTagPageContent settings t w
       = Plugin.createTagPage fetchTagData generateTagPageContent settings
           ("#" +:+ t) w)
  ∧ (∀ fileLinkOf docs config,
       Indexer.index fileLinkOf docs t config
       = Indexer.index fileLinkOf docs ("#" +:+ t) config)
  ∧ (∀ escape config tagInfos,
       Generator.render escape config tagInfos t
       = Generator.render escape config tagInfos ("#" +:+ t)).
Proof.
  intros Ht.
  pose proof (normalizeTag_unmarked t Ht) as H1.
  pose proof (normalizeTag_marked t) as H2.
  split; [done|]. split; [done|]. split; [|split].
  - intros fetchTagData generateTagPageContent settings w.
    unfold Plugin.createTagPage, Plugin.Async.createTagPage.
    by rewrite H1, H2.
  - intros fileLinkOf docs config.
    unfold Indexer.index, Indexer.index_keyed. by rewrite H1, H2.
  - intros escape config tagInfos.
    unfold Generator.render, Generator.heading. by rewrite H1, H2.
Qed.

Lemma C3_witness :
  normalizeTag "proj" = "#proj"
  ∧ normalizeTag "#proj" = "#proj"
  ∧ Indexer.index wikilink [doc_query; doc_inline] "proj" settings0
    = Indexer.index wikilink [doc_query; doc_inline] "#proj" settings0.
Proof.
  destruct (C3_marker_optional "proj" eq_refl) as (H1 & H2 & _ & Hi & _).
  split; [exact H1|]. split; [exact H2|]. apply Hi.
Defined.

(** C4: at a note whose path merely contains the directory name, here
    [Notes/HashTags.md] with [tagPageDir = "Tags"], the refresh callback
    replaces the editor's text by the generated page although the note is
    not under the directory: the guard of [refreshTagPageContent] tests
    [includes], not a path prefix. *)
Theorem C4_refresh_overwrites_unrelated_note
    (fetchTagData : Vault → PluginSettings → string → list TagInfo)
    (generateTagPageContent : PluginSettings → list TagInfo → string → string)
    (tag : string) (w : World) :
  Js.startsWith "Notes/HashTags.md" (tagPageDir settings0) = false
  ∧ editor notes_view = Some "my own notes"
  ∧ Plugin.refreshTagPageContent fetchTagData generateTagPageContent settings0
      (Some notes_view) tag w
    = inr (Some {| editor := Some (generateTagPageContent settings0
                                     (fetchTagData (vault w) settings0 tag)
                                     tag);
                   file := Some "Notes/HashTags.md" |},
           Plugin.scanned_world tag w).
Proof.
  split; [by vm_compute|]. split; [done|].
  rewrite refresh_run.
  replace (Plugin.refresh_guard settings0 notes_view) with true
    by (by vm_compute).
  done.
Qed.

Example refresh_notes_view :
  Plugin.refreshTagPageContent fetchTagData_model generateTagPageContent_model
    settings0 (Some notes_view) "#proj" empty_world
  = inr (Some {| editor := Some ("# #proj" +:+ Js.nl +:+ Js.nl +:+
                                 "No matches found." +:+ Js.nl);
                 file := Some "Notes/HashTags.md" |},
         Plugin.scanned_world "#proj" empty_world).
Proof. vm_compute. reflexivity. Qed.

(** With an empty tag and a page already at [Tags/#.md], the create
    command opens that page and completes, although the indexer it was
    given rejects the empty tag: the indexer is never called. *)
Lemma C5_empty_tag_opens_existing_page :
  fetchTagData_checked (vault world_with_marker_page) settings0 ""
  = inl InvalidTagInput
  ∧ Plugin.Async.createTagPage fetchTagData_checked
      (resolves generateTagPageContent_model) settings0 ""
      world_with_marker_page
    = inr (tt, {| vault := vault world_with_marker_page;
                  shown := Some "Tags/#.md";
                  calls := [CallOpenFile "Tags/#.md"] |}).
Proof. vm_compute. done. Qed.

(** C5 (as the code has it): [createTagPage] validates nothing itself. An
    empty tag and a bare [#] are normalized to [#]; when something exists
    at [tagPageDir/#.md] it is opened, with no error and no scan; otherwise
    the indexer is called with [#] first, and when it rejects, the command
    is rejected with the very same error having rendered and created
    nothing; so is it when the generator rejects; when both resolve, the
    page is created and opened. *)
Theorem C5_empty_tag_reaches_indexer
    (fetchTagData : Vault → PluginSettings → string → error + list TagInfo)
    (generateTagPageContent :
       PluginSettings → list TagInfo → string → error + string)
    (settings : PluginSettings) (tag : string) (w : World) :
  tag = "" ∨ tag = "#" →
  normalizeTag tag = "#"
  ∧ (∀ f, Host.lookup_path (vault w) (Plugin.tagPagePath settings "#")
          = Some f →
          Plugin.Async.createTagPage fetchTagData generateTagPageContent
            settings tag w
          = inr (tt, Plugin.opened_world f w))
  ∧ (Host.lookup_path (vault w) (Plugin.tagPagePath settings "#") = None →
     (∀ e, fetchTagData (vault w) settings "#" = inl e →
           Plugin.Async.createTagPage fetchTagData generateTagPageContent
             settings tag w
           = inl (e, Plugin.fetched_world "#" w))
     ∧ (∀ l e, fetchTagData (vault w) settings "#" = inr l →
               generateTagPageContent settings l "#" = inl e →
               Plugin.Async.createTagPage fetchTagData generateTagPageContent
                 settings tag w
               = inl (e, Plugin.scanned_world "#" w))
     ∧ (∀ l data, fetchTagData (vault w) settings "#" = inr l →
                  generateTagPageContent settings l "#" = inr data →
                  Plugin.Async.createTagPage fetchTagData
                    generateTagPageContent settings tag w
                  = inr (tt, Plugin.page_created settings data "#" w))).
Proof.
  intros Htag.
  assert (normalizeTag tag = "#") as Hn by (by destruct Htag as [->| ->]).
  split; [done|]. split.
  - intros f H. apply async_existing. by rewrite Hn.
  - intros H. rewrite <- Hn in H |- *. repeat split.
    + intros e. by apply async_fetch_rejects.
    + intros l e. by apply async_generate_rejects.
    + intros l data. by apply async_fresh.
Qed.

Lemma C5_witness :
  normalizeTag "" = "#"
  ∧ Plugin.Async.createTagPage fetchTagData_checked
      (resolves generateTagPageContent_model) settings0 "" empty_world
    = inl (InvalidTagInput, Plugin.fetched_world "#" empty_world).
Proof.
  destruct (C5_empty_tag_reaches_indexer fetchTagData_checked
              (resolves generateTagPageContent_model) settings0 ""
              empty_world (or_introl eq_refl)) as (Hn & _ & Hfresh).
  split; [exact Hn|].
  destruct Hfresh as (Hrej & _); [vm_compute; reflexivity|].
  apply Hrej. vm_compute. reflexivity.
Defined.

(** A generated page that carries the query property for its own tag is
    not listed: it lives inside the tag page directory. *)
Lemma C6_tag_page_not_listed :
  Indexer.inline_matches Indexer.is_tag_char (normalizeTag "proj")
    (content doc_tagpage) = []
  ∧ frontmatter doc_tagpage !! frontmatterQueryProperty settings0
    = Some (Js.VString (normalizeTag "proj"))
  ∧ Indexer.index wikilink [doc_tagpage] "proj" settings0 = [].
Proof. vm_compute. done. Qed.

(** C6 (as amended): among documents with unique paths, a document
    inside the tag page directory has no record, whatever its frontmatter;
    a document outside it whose frontmatter holds the query property with
    the normalized tag as its value is listed exactly once, and its
    evidence is the inline lines followed by the frontmatter marker, so a
    document with no inline match has the marker as its only entry. *)
Theorem C6_frontmatter_rule (fileLinkOf : string → string)
    (config : PluginSettings) (tag : string) (d : Document)
    (docs : list Document) :
  NoDup (path <$> docs) → d ∈ docs →
  (Indexer.inTagPageDir config (path d) = true →
   Indexer.index_doc fileLinkOf config (normalizeTag tag) d = None
   ∧ filter (λ x, x.1 = path d)
       (Indexer.index_keyed fileLinkOf docs tag config) = [])
  ∧ (Indexer.inTagPageDir config (path d) = false →
     frontmatter d !! frontmatterQueryProperty config
       = Some (Js.VString (normalizeTag tag)) →
     ∃ ti,
       tagMatches ti
       = Indexer.inline_matches Indexer.is_tag_char (normalizeTag tag)
           (content d) ++ [Indexer.frontmatter_marker]
       ∧ fileLink ti = fileLinkOf (path d)
       ∧ (Indexer.inline_matches Indexer.is_tag_char (normalizeTag tag)
            (content d) = [] →
          tagMatches ti = [Indexer.frontmatter_marker])
       ∧ Indexer.index_doc fileLinkOf config (normalizeTag tag) d = Some ti
       ∧ filter (λ x, x.1 = path d)
           (Indexer.index_keyed fileLinkOf docs tag config) = [(path d, ti)]
       ∧ ti ∈ Indexer.index fileLinkOf docs tag config).
Proof.
  intros Hnd Hd. split.
  - intros Hin.
    assert (Indexer.index_doc fileLinkOf config (normalizeTag tag) d = None)
      as Hnone by (unfold Indexer.index_doc; by rewrite Hin).
    split; [done|]. by apply index_keyed_absent.
  - intros Hout Hfm.
    set (t := normalizeTag tag) in *.
    set (ti := {| fileLink := fileLinkOf (path d);
                  tagMatches := Indexer.inline_matches Indexer.is_tag_char t
                                  (content d)
                                ++ [Indexer.frontmatter_marker] |}).
    assert (Indexer.index_doc fileLinkOf config t d = Some ti) as Hdoc.
    { unfold Indexer.index_doc, Indexer.evidence, Indexer.frontmatter_match.
      rewrite Hout, bool_decide_eq_true_2 by done.
      subst ti.
      by destruct (Indexer.inline_matches Indexer.is_tag_char t (content d)). }
    pose proof (index_keyed_once fileLinkOf config docs tag d ti Hnd Hd Hdoc)
      as Honce.
    exists ti. split; [done|]. split; [done|].
    split; [intros Hnone; simpl; by rewrite Hnone|].
    split; [done|]. split; [done|].
    unfold Indexer.index. apply list_elem_of_fmap. exists (path d, ti).
    split; [done|].
    apply (elem_of_index_keyed fileLinkOf config docs tag (path d, ti)).
    by exists d.
Qed.

Lemma C6_witness :
  (∃ ti, tagMatches ti = ["matched via frontmatter query"]
         ∧ filter (λ x, x.1 = "C.md")
             (Indexer.index_keyed wikilink [doc_query; doc_both; doc_tagpage]
                "proj" settings0) = [("C.md", ti)])
  ∧ (∃ ti, tagMatches ti = ["then #proj."; "matched via frontmatter query"]
           ∧ ti ∈ Indexer.index wikilink [doc_query; doc_both; doc_tagpage]
                    "proj" settings0)
  ∧ filter (λ x, x.1 = "Tags/#proj.md")
      (Indexer.index_keyed wikilink [doc_query; doc_both; doc_tagpage]
         "proj" settings0) = [].
Proof.
  assert (NoDup (path <$> [doc_query; doc_both; doc_tagpage])) as Hnd.
  { apply (bool_decide_unpack _). vm_compute. reflexivity. }
  split; [|split].
  - destruct (C6_frontmatter_rule wikilink settings0 "proj" doc_query
                [doc_query; doc_both; doc_tagpage] Hnd ltac:(by left))
      as [_ Hout].
    destruct (Hout eq_refl eq_refl) as (ti & Hev & _ & _ & _ & Honce & _).
    exists ti. split; [exact Hev|exact Honce].
  - destruct (C6_frontmatter_rule wikilink settings0 "proj" doc_both
                [doc_query; doc_both; doc_tagpage] Hnd ltac:(right; left))
      as [_ Hout].
    destruct (Hout eq_refl eq_refl) as (ti & Hev & _ & _ & _ & _ & Hin).
    exists ti. split; [exact Hev|exact Hin].
  - destruct (C6_frontmatter_rule wikilink settings0 "proj" doc_tagpage
                [doc_query; doc_both; doc_tagpage] Hnd
                ltac:(right; right; left)) as [Hin _].
    apply (Hin eq_refl).
Defined.

Example render_empty_proj :
  Generator.render verbatim settings0 [] "proj"
  = "# #proj" +:+ Js.nl +:+ Js.nl +:+ "No matches found." +:+ Js.nl.
Proof. vm_compute. reflexivity. Qed.

(** On a tag with a name the checked indexer resolves with the records. *)
Lemma fetchTagData_checked_named (v : Vault) (config : PluginSettings)
    (tag : string) :
  normalizeTag tag ≠ "#" →
  fetchTagData_checked v config tag = inr (fetchTagData_model v config tag).
Proof.
  intros Hn. unfold fetchTagData_checked, Indexer.index_checked.
  by rewrite bool_decide_eq_false_2.
Qed.

Lemma fetchTagData_checked_marker (v : Vault) (config : PluginSettings)
    (tag : string) :
  tag = "" ∨ tag = "#" → fetchTagData_checked v config tag = inl InvalidTagInput.
Proof. by intros [->| ->]. Qed.

(** C10: when a file already exists at [tagPageDir/<normalized tag>.md],
    [createTagPage] leaves the vault as it is and makes a single call, the
    opening of that file: no scan, no render, no folder or file creation. *)
Theorem C10_existing_page_only_opened
    (fetchTagData : Vault → PluginSettings → string → list TagInfo)
    (generateTagPageContent : PluginSettings → list TagInfo → string → string)
    (settings : PluginSettings) (tag : string) (w : World) :
  is_Some (files (vault w) !! Plugin.tagPagePath settings (normalizeTag tag)) →
  Plugin.createTagPage fetchTagData generateTagPageContent settings tag w
  = inr (tt, {| vault := vault w;
                shown := Some (Plugin.tagPagePath settings (normalizeTag tag));
                calls := calls w ++
                         [CallOpenFile (Plugin.tagPagePath settings
                                          (normalizeTag tag))] |}).
Proof.
  intros [fd Hfd].
  apply (createTagPage_existing _ _ _ tag w
           (TFile (Plugin.tagPagePath settings (normalizeTag tag)))).
  unfold Host.lookup_path. by rewrite Hfd.
Qed.

Lemma C10_witness :
  Plugin.createTagPage fetchTagData_model generateTagPageContent_model
    settings0 "proj" world_with_page
  = inr (tt, {| vault := vault world_with_page;
                shown := Some "Tags/#proj.md";
                calls := [CallOpenFile "Tags/#proj.md"] |}).
Proof.
  apply (C10_existing_page_only_opened fetchTagData_model
           generateTagPageContent_model settings0 "proj" world_with_page).
  vm_compute. eexists. reflexivity.
Defined.

(** * Further properties of the plugin code *)

(** ** Settings: saving and loading *)

Lemma loadSettings_covering (s : Js.object) :
  s !! Js.proto = None → dom DEFAULT_SETTINGS ⊆ dom s →
  loadSettings (Some s) = s.
Proof.
  intros Hproto Hdom. apply map_eq. intros k. rewrite loadSettings_lookup.
  destruct (decide (k = Js.proto)) as [->|Hk]; [done|].
  destruct (s !! k) as [v|] eqn:Hs; [done|].
  apply not_elem_of_dom in Hs.
  apply not_elem_of_dom. intros Hin. apply Hs, Hdom, Hin.
Qed.

Lemma loadSettings_dom (d : option Js.object) :
  dom DEFAULT_SETTINGS ⊆ dom (loadSettings d).
Proof.
  destruct d as [s|]; [|by rewrite loadSettings_null].
  intros k [v Hv]%elem_of_dom. apply elem_of_dom.
  rewrite loadSettings_lookup.
  destruct (decide (k = Js.proto)) as [->|Hk].
  - by rewrite DEFAULT_SETTINGS_proto in Hv.
  - destruct (s !! k); eauto.
Qed.

Lemma loadSettings_no_proto (d : option Js.object) :
  loadSettings d !! Js.proto = None.
Proof.
  destruct d as [s|].
  - rewrite loadSettings_lookup. by rewrite decide_True.
  - rewrite loadSettings_null. apply DEFAULT_SETTINGS_proto.
Qed.

(** X1: load, save, load is the same as load, whatever was on disk; and
    settings that hold every key of the defaults and no own [__proto__]
    survive a save followed by a load unchanged. *)
Theorem X1_save_load_roundtrip (st : PluginState) :
  st_settings (loadSettings_run (saveSettings (loadSettings_run st)))
  = st_settings (loadSettings_run st)
  ∧ (st_settings st !! Js.proto = None →
     dom DEFAULT_SETTINGS ⊆ dom (st_settings st) →
     st_settings (loadSettings_run (saveSettings st)) = st_settings st).
Proof.
  split; simpl.
  - apply loadSettings_covering; [apply loadSettings_no_proto|].
    apply loadSettings_dom.
  - apply loadSettings_covering.
Qed.

Lemma X1_witness :
  st_settings (loadSettings_run (saveSettings state_edited))
  = st_settings state_edited.
Proof.
  apply (X1_save_load_roundtrip state_edited).
  - vm_compute. reflexivity.
  - apply (bool_decide_unpack _). vm_compute. reflexivity.
Defined.

(** X2: after the settings tab's [onChange] and a reload, [mySetting] is
    the entered value and every other key is what the settings held in
    memory before the change (or its default when they had none), whatever
    was on disk: the whole object is written, not the one field. The one
    exception is an own key [__proto__], which loading never takes over. *)
Theorem X2_onChange_persists (value : string) (st : PluginState) (k : string) :
  st_settings (loadSettings_run (onChange value st)) !! k
  = if decide (k = Js.proto) then None
    else if decide (k = "mySetting") then Some (Js.VString value)
    else match st_settings st !! k with
         | Some v => Some v
         | None => DEFAULT_SETTINGS !! k
         end.
Proof.
  simpl. rewrite loadSettings_lookup.
  destruct (decide (k = Js.proto)) as [->|Hp]; [done|].
  destruct (decide (k = "mySetting")) as [->|Hk].
  - by rewrite lookup_insert_eq.
  - by rewrite lookup_insert_ne.
Qed.

(** ** The create command: what a run leaves behind *)

Lemma lookup_path_abstract_path (v : Vault) (p : string) (f : TAbstractFile) :
  Host.lookup_path v p = Some f → abstract_path f = p.
Proof.
  unfold Host.lookup_path. destruct (files v !! p); [by intros [= <-]|].
  destruct (decide (p ∈ folders v)); [by intros [= <-]|done].
Qed.

Lemma lookup_path_file (v : Vault) (p : string) (fd : FileData) :
  files v !! p = Some fd → Host.lookup_path v p = Some (TFile p).
Proof. unfold Host.lookup_path. by intros ->. Qed.

Lemma lookup_path_None (v : Vault) (p : string) :
  Host.lookup_path v p = None ↔ files v !! p = None ∧ p ∉ folders v.
Proof.
  unfold Host.lookup_path. destruct (files v !! p).
  - split; [done|by intros [? _]].
  - destruct (decide (p ∈ folders v)); split; try done. by intros [_ ?].
Qed.

Lemma append_inv_tail (a b c : string) : a +:+ c = b +:+ c → a = b.
Proof.
  revert b. induction a as [|x a IH]; intros [|y b]; simpl; [done| | |].
  - intros H. apply (f_equal String.length) in H.
    simpl in H. rewrite append_length in H. lia.
  - intros H. apply (f_equal String.length) in H.
    simpl in H. rewrite append_length in H. lia.
  - intros [= -> H]. f_equal. by apply IH.
Qed.

Section CreateTagPageRuns.

Variable fetchTagData : Vault → PluginSettings → string → list TagInfo.
Variable generateTagPageContent :
  PluginSettings → list TagInfo → string → string.
Variable settings : PluginSettings.

Local Abbreviation createTagPage :=
  (Plugin.createTagPage fetchTagData generateTagPageContent settings).
Local Abbreviation refreshTagPageContent :=
  (Plugin.refreshTagPageContent fetchTagData generateTagPageContent settings).
Local Abbreviation pageOf tag := (Plugin.tagPagePath settings (normalizeTag tag)).
Local Abbreviation dir := (tagPageDir settings).

(** X3: when nothing exists at the page's path, the command scans the
    vault for the normalized tag, renders, creates the page and opens it,
    in this order and with the directory created first when nothing is
    there; the page's text is generated from the vault as it was before the
    page existed. *)
Theorem X3_createTagPage_fresh_run (tag : string) (w : World) :
  Host.lookup_path (vault w) (pageOf tag) = None →
  ∃ w', createTagPage tag w = inr (tt, w')
    ∧ calls w' = calls w ++
        [CallFetchTagData (normalizeTag tag); CallGenerate (normalizeTag tag)]
        ++ (if bool_decide (is_Some (Host.lookup_path (vault w) dir))
            then [] else [CallCreateFolder dir])
        ++ [CallCreate (pageOf tag)
              (generateTagPageContent settings
                 (fetchTagData (vault w) settings (normalizeTag tag))
                 (normalizeTag tag));
            CallOpenFile (pageOf tag)]
    ∧ fd_content <$> files (vault w') !! pageOf tag
      = Some (generateTagPageContent settings
                (fetchTagData (vault w) settings (normalizeTag tag))
                (normalizeTag tag))
    ∧ shown w' = Some (pageOf tag).
Proof.
  intros Hfree. eexists. split; [by apply createTagPage_fresh|].
  split; [done|]. split; [|done].
  simpl. by rewrite lookup_insert_eq.
Qed.

Lemma createTagPage_leaves_page (tag : string) (w : World) :
  ∃ w' f, createTagPage tag w = inr (tt, w')
    ∧ Host.lookup_path (vault w') (pageOf tag) = Some f
    ∧ shown w' = Some (pageOf tag)
    ∧ last (calls w') = Some (CallOpenFile (pageOf tag)).
Proof.
  destruct (Host.lookup_path (vault w) (pageOf tag)) as [f|] eqn:Hp.
  - pose proof (lookup_path_abstract_path _ _ _ Hp) as Hf.
    eexists _, f. split; [by apply createTagPage_existing|].
    simpl. by rewrite Hf, last_snoc.
  - eexists _, (TFile (pageOf tag)).
    split; [by apply createTagPage_fresh|].
    split; [|split; [done|]].
    + apply (lookup_path_file _ _
        {| fd_content := generateTagPageContent settings
                           (fetchTagData (vault w) settings (normalizeTag tag))
                           (normalizeTag tag);
           fd_frontmatter := ∅ |}).
      simpl. by rewrite lookup_insert_eq.
    + simpl. rewrite last_app. by destruct (bool_decide _).
Qed.

(** X5: the command never removes or changes a file or folder that was
    there before: every file keeps its data, every folder stays, and only
    the page's path can gain a file. *)
Theorem X5_createTagPage_keeps_vault (tag : string) (w : World) :
  ∃ w', createTagPage tag w = inr (tt, w')
    ∧ files (vault w) ⊆ files (vault w')
    ∧ folders (vault w) ⊆ folders (vault w')
    ∧ delete (pageOf tag) (files (vault w'))
      = delete (pageOf tag) (files (vault w)).
Proof.
  destruct (Host.lookup_path (vault w) (pageOf tag)) as [f|] eqn:Hp.
  - eexists. split; [by apply createTagPage_existing|]. by simpl.
  - apply lookup_path_None in Hp as Hfree. destruct Hfree as [Hfile _].
    eexists. split; [by apply createTagPage_fresh|]. simpl.
    split; [by apply insert_subseteq|]. split.
    + destruct (bool_decide _); [done|]. apply union_subseteq_r.
    + by rewrite delete_insert_eq.
Qed.

(** X6: running the command a second time for the same tag only opens the
    page: the vault is left as the first run made it and the one further
    call is the opening of the page. *)
Theorem X6_createTagPage_twice (tag : string) (w : World) :
  ∃ w1 w2, createTagPage tag w = inr (tt, w1)
    ∧ createTagPage tag w1 = inr (tt, w2)
    ∧ vault w2 = vault w1
    ∧ calls w2 = calls w1 ++ [CallOpenFile (pageOf tag)].
Proof.
  destruct (createTagPage_leaves_page tag w) as (w1 & f & Hrun & Hf & _).
  pose proof (lookup_path_abstract_path _ _ _ Hf) as Hpath.
  exists w1, (Plugin.opened_world f w1).
  split; [done|]. split; [by apply createTagPage_existing|].
  simpl. by rewrite Hpath.
Qed.

End CreateTagPageRuns.

Lemma X3_witness :
  ∃ w', Plugin.createTagPage fetchTagData_model generateTagPageContent_model
          settings0 "proj" empty_world = inr (tt, w')
    ∧ fd_content <$> files (vault w') !! "Tags/#proj.md"
      = Some (generateTagPageContent_model settings0 [] "#proj").
Proof.
  destruct (X3_createTagPage_fresh_run fetchTagData_model
              generateTagPageContent_model settings0 "proj" empty_world)
    as (w' & Hrun & _ & Hfile & _).
  - vm_compute. reflexivity.
  - exists w'. split; [exact Hrun|exact Hfile].
Defined.

Section CreateTagPageEdges.

Variable fetchTagData : Vault → PluginSettings → string → list TagInfo.
Variable generateTagPageContent :
  PluginSettings → list TagInfo → string → string.
Variable settings : PluginSettings.

Local Abbreviation createTagPage :=
  (Plugin.createTagPage fetchTagData generateTagPageContent settings).
Local Abbreviation pageOf tag := (Plugin.tagPagePath settings (normalizeTag tag)).
Local Abbreviation dir := (tagPageDir settings).

(** X7: when a folder, not a file, sits at the page's path, the command
    creates nothing and scans nothing: it hands the folder to [openFile] as
    if it were the page. *)
Theorem X7_createTagPage_folder_in_the_way (tag : string) (w : World) :
  files (vault w) !! pageOf tag = None →
  pageOf tag ∈ folders (vault w) →
  ∃ w', createTagPage tag w = inr (tt, w')
    ∧ vault w' = vault w
    ∧ calls w' = calls w ++ [CallOpenFile (pageOf tag)]
    ∧ files (vault w') !! pageOf tag = None.
Proof.
  intros Hfile Hfolder.
  exists (Plugin.opened_world (TFolder (pageOf tag)) w).
  split; [|by simpl].
  apply createTagPage_existing. unfold Host.lookup_path.
  by rewrite Hfile, decide_True.
Qed.

(** X8: the directory is created exactly when the page is to be created
    and nothing exists at [tagPageDir]; in every other run the set of
    folders is left as it was. *)
Theorem X8_createTagPage_directory (tag : string) (w : World) :
  ∃ w', createTagPage tag w = inr (tt, w')
    ∧ folders (vault w')
      = (if bool_decide (is_Some (Host.lookup_path (vault w) (pageOf tag)))
            || bool_decide (is_Some (Host.lookup_path (vault w) dir))
         then folders (vault w)
         else {[ dir ]} ∪ folders (vault w))
    ∧ (CallCreateFolder dir ∈ drop (length (calls w)) (calls w') ↔
       Host.lookup_path (vault w) (pageOf tag) = None
       ∧ Host.lookup_path (vault w) dir = None).
Proof.
  destruct (Host.lookup_path (vault w) (pageOf tag)) as [f|] eqn:Hp.
  - eexists. split; [by apply createTagPage_existing|]. simpl.
    split; [done|]. rewrite drop_app_length.
    split; [|by intros [? _]].
    by intros [=]%list_elem_of_singleton.
  - eexists. split; [by apply createTagPage_fresh|]. simpl.
    rewrite drop_app_length.
    destruct (Host.lookup_path (vault w) dir) as [g|] eqn:Hd; simpl.
    + split; [done|]. split; [|by intros [_ ?]].
      rewrite !elem_of_cons, elem_of_nil. by intros [|[|[|[|[]]]]].
    + split; [done|]. split; [done|]. intros _. set_solver.
Qed.

(** X9: two tags have the same page exactly when they normalize to the
    same tag, so the page created for one tag is never the page of a tag
    with another name. *)
Theorem X9_page_per_normalized_tag (tag1 tag2 : string) :
  pageOf tag1 = pageOf tag2 ↔ normalizeTag tag1 = normalizeTag tag2.
Proof.
  split; [|by intros ->].
  unfold Plugin.tagPagePath. intros H.
  apply append_inv_head, append_inv_head in H.
  by apply append_inv_tail in H.
Qed.

(** X10: normalizing is idempotent and never drops a character: the
    result starts with [#] and is the tag itself or the tag with one [#] in
    front, so the command gives the same run for a tag and for its
    normalized form, also when the tag has several leading [#]. *)
Theorem X10_normalizeTag_stable (tag : string) (w : World) :
  normalizeTag (normalizeTag tag) = normalizeTag tag
  ∧ Js.startsWith (normalizeTag tag) "#" = true
  ∧ (normalizeTag tag = tag ∨ normalizeTag tag = "#" +:+ tag)
  ∧ normalizeTag ("#" +:+ tag) = "#" +:+ tag
  ∧ createTagPage (normalizeTag tag) w = createTagPage tag w.
Proof.
  split; [apply normalizeTag_idemp|].
  split; [apply normalizeTag_startsWith|].
  split; [unfold normalizeTag; destruct (Js.startsWith tag "#"); auto|].
  split; [apply normalizeTag_marked|].
  apply createTagPage_normalized.
Qed.

End CreateTagPageEdges.

Lemma X7_witness :
  ∃ w', Plugin.createTagPage fetchTagData_model generateTagPageContent_model
          settings0 "proj" world_with_folder = inr (tt, w')
    ∧ vault w' = vault world_with_folder
    ∧ calls w' = [CallOpenFile "Tags/#proj.md"].
Proof.
  destruct (X7_createTagPage_folder_in_the_way fetchTagData_model
              generateTagPageContent_model settings0 "proj" world_with_folder)
    as (w' & Hrun & Hvault & Hcalls & _).
  - vm_compute. reflexivity.
  - apply (bool_decide_unpack _). vm_compute. reflexivity.
  - exists w'. split; [exact Hrun|]. split; [exact Hvault|exact Hcalls].
Defined.

(** ** The refresh callback: what a run does and does not do *)

Section RefreshRuns.

Variable fetchTagData : Vault → PluginSettings → string → list TagInfo.
Variable generateTagPageContent :
  PluginSettings → list TagInfo → string → string.
Variable settings : PluginSettings.

Local Abbreviation createTagPage :=
  (Plugin.createTagPage fetchTagData generateTagPageContent settings).
Local Abbreviation refreshTagPageContent :=
  (Plugin.refreshTagPageContent fetchTagData generateTagPageContent settings).
Local Abbreviation generated tag w :=
  (generateTagPageContent settings (fetchTagData (vault w) settings tag) tag).
Local Abbreviation dir := (tagPageDir settings).

Lemma refresh_no_leaf (tag : string) (w : World) :
  refreshTagPageContent None tag w = inr (None, Plugin.scanned_world tag w).
Proof.
  unfold Plugin.refreshTagPageContent, Plugin.Async.refreshTagPageContent,
    Plugin.Async.fetch, Plugin.Async.generate, get_vault, record, settle,
    resolves, mbind, M_bind, mret, M_ret, Plugin.scanned_world; simpl.
  by rewrite <- (assoc_L (++)).
Qed.

(** X11: whatever the view (none, without editor, without file, or
    failing the guard), a refresh scans and renders once with the tag as
    given, not normalized, touches neither the vault nor the shown file,
    and leaves the view's file as it was. *)
Theorem X11_refresh_frame (activeLeaf : option MarkdownView) (tag : string)
    (w : World) :
  ∃ view' w', refreshTagPageContent activeLeaf tag w = inr (view', w')
    ∧ vault w' = vault w
    ∧ shown w' = shown w
    ∧ calls w' = calls w ++ [CallFetchTagData tag; CallGenerate tag]
    ∧ file <$> view' = file <$> activeLeaf.
Proof.
  destruct activeLeaf as [leaf|].
  - eexists _, _. split; [apply refresh_run|].
    repeat split. simpl. by destruct (Plugin.refresh_guard settings leaf).
  - eexists _, _. split; [apply refresh_no_leaf|]. done.
Qed.

(** X12: a refresh replaces the editor's text by the generated page
    exactly when the view has an editor and a file whose path contains the
    directory name somewhere; otherwise the view is returned as it was. *)
Theorem X12_refresh_writes_iff (leaf : MarkdownView) (tag : string)
    (w : World) :
  ∃ leaf' w', refreshTagPageContent (Some leaf) tag w = inr (Some leaf', w')
    ∧ ((is_Some (editor leaf)
        ∧ (∃ p pre post, file leaf = Some p ∧ p = pre +:+ dir +:+ post)
        ∧ leaf' = {| editor := Some (generated tag w); file := file leaf |})
       ∨ (¬ (is_Some (editor leaf)
             ∧ ∃ p pre post, file leaf = Some p ∧ p = pre +:+ dir +:+ post)
          ∧ leaf' = leaf)).
Proof.
  eexists _, _. split; [apply refresh_run|].
  unfold Plugin.refresh_guard.
  destruct (editor leaf) as [txt|]; [|right; split; [by intros [[? [=]] _]|done]].
  destruct (file leaf) as [p|];
    [|right; split; [by intros [_ (? & ? & ? & [=] & _)]|done]].
  destruct (Js.includes p dir) eqn:Hinc.
  - left. apply includes_true in Hinc as (pre & post & ->).
    split; [by eexists|]. split; [|done]. by eexists _, pre, post.
  - right. split; [|done]. intros [_ (q & pre & post & [= <-] & ->)].
    assert (Js.includes (pre +:+ dir +:+ post) dir = true) as Hyes
      by (apply includes_true; eauto).
    congruence.
Qed.

(** X13: with an empty [tagPageDir] the guard holds for every path, so a
    refresh overwrites the text of any file shown in an editor. *)
Theorem X13_refresh_empty_dir (txt p tag : string) (w : World) :
  dir = "" →
  ∃ w', refreshTagPageContent (Some {| editor := Some txt; file := Some p |})
          tag w
        = inr (Some {| editor := Some (generated tag w); file := Some p |}, w').
Proof.
  intros Hdir. eexists. rewrite refresh_run.
  unfold Plugin.refresh_guard; simpl. rewrite Hdir.
  replace (Js.includes p "") with true; [done|].
  symmetry. apply includes_true. by exists "", p.
Qed.

(** X15: the page the create command leaves in the workspace passes the
    refresh guard: shown in an editor, a refresh for the normalized tag
    replaces the editor's text by the page generated from the vault as the
    command left it. *)
Theorem X15_created_page_refreshes (tag txt : string) (w : World) :
  ∃ w1 w2, createTagPage tag w = inr (tt, w1)
    ∧ refreshTagPageContent (Some {| editor := Some txt; file := shown w1 |})
        (normalizeTag tag) w1
      = inr (Some {| editor := Some (generated (normalizeTag tag) w1);
                     file := shown w1 |}, w2).
Proof.
  destruct (createTagPage_leaves_page fetchTagData generateTagPageContent
              settings tag w) as (w1 & f & Hrun & _ & Hshown & _).
  exists w1. eexists. split; [done|].
  rewrite refresh_run. unfold Plugin.refresh_guard; simpl. rewrite Hshown.
  replace (Js.includes (Plugin.tagPagePath settings (normalizeTag tag)) dir)
    with true; [done|].
  symmetry. apply includes_true.
  exists "", ("/" +:+ normalizeTag tag +:+ ".md"). done.
Qed.

End RefreshRuns.

Lemma X13_witness :
  ∃ w', Plugin.refreshTagPageContent fetchTagData_model
          generateTagPageContent_model settings_nodir (Some diary_view)
          "#proj" empty_world
        = inr (Some {| editor := Some (generateTagPageContent_model
                                         settings_nodir [] "#proj");
                       file := Some "diary.md" |}, w').
Proof.
  apply (X13_refresh_empty_dir fetchTagData_model generateTagPageContent_model
           settings_nodir "dear diary" "diary.md" "#proj" empty_world).
  vm_compute. reflexivity.
Defined.

(** ** The create command: rejections and completed runs *)

Section CreateTagPageOutcomes.

Variable fetchTagData :
  Vault → PluginSettings → string → error + list TagInfo.
Variable generateTagPageContent :
  PluginSettings → list TagInfo → string → error + string.
Variable settings : PluginSettings.

Local Abbreviation createTagPage :=
  (Plugin.Async.createTagPage fetchTagData generateTagPageContent settings).
Local Abbreviation pageOf tag := (Plugin.tagPagePath settings (normalizeTag tag)).

Lemma async_completed (tag : string) (w w' : World) :
  createTagPage tag w = inr (tt, w') →
  (∃ f, Host.lookup_path (vault w) (pageOf tag) = Some f
        ∧ w' = Plugin.opened_world f w)
  ∨ (∃ l data, Host.lookup_path (vault w) (pageOf tag) = None
       ∧ fetchTagData (vault w) settings (normalizeTag tag) = inr l
       ∧ generateTagPageContent settings l (normalizeTag tag) = inr data
       ∧ w' = Plugin.page_created settings data (normalizeTag tag) w).
Proof.
  destruct (Host.lookup_path (vault w) (pageOf tag)) as [f|] eqn:Hp.
  - rewrite (async_existing _ _ _ _ _ _ Hp). intros [= <-]. left. by exists f.
  - destruct (fetchTagData (vault w) settings (normalizeTag tag))
      as [e|l] eqn:Hl.
    + by rewrite (async_fetch_rejects _ _ _ _ _ _ Hp Hl).
    + destruct (generateTagPageContent settings l (normalizeTag tag))
        as [e|data] eqn:Hd.
      * by rewrite (async_generate_rejects _ _ _ _ _ _ _ Hp Hl Hd).
      * rewrite (async_fresh _ _ _ _ _ _ _ Hp Hl Hd). intros [= <-].
        right. by exists l, data.
Qed.

(** X4: the command has no handler around its helpers. With no page at
    the path, a rejection of [fetchTagData] is the command's rejection,
    after that one call; a rejection of [generateTagPageContent] likewise,
    after the two helper calls; either way the vault and the shown file are
    as before. And a run that completes leaves something at the page's
    path, shows that path, and ends with its opening. *)
Theorem X4_createTagPage_outcomes (tag : string) (w : World) :
  (Host.lookup_path (vault w) (pageOf tag) = None →
   (∀ e, fetchTagData (vault w) settings (normalizeTag tag) = inl e →
         createTagPage tag w
         = inl (e, {| vault := vault w; shown := shown w;
                      calls := calls w ++
                               [CallFetchTagData (normalizeTag tag)] |}))
   ∧ (∀ l e, fetchTagData (vault w) settings (normalizeTag tag) = inr l →
             generateTagPageContent settings l (normalizeTag tag) = inl e →
             createTagPage tag w
             = inl (e, {| vault := vault w; shown := shown w;
                          calls := calls w ++
                                   [CallFetchTagData (normalizeTag tag);
                                    CallGenerate (normalizeTag tag)] |})))
  ∧ (∀ w', createTagPage tag w = inr (tt, w') →
           is_Some (Host.lookup_path (vault w') (pageOf tag))
           ∧ shown w' = Some (pageOf tag)
           ∧ last (calls w') = Some (CallOpenFile (pageOf tag))).
Proof.
  split.
  - intros Hp. split.
    + intros e He. by apply async_fetch_rejects.
    + intros l e Hl He. by eapply async_generate_rejects.
  - intros w' [(f & Hp & ->)|(l & data & Hp & _ & _ & ->)]%async_completed.
    + pose proof (lookup_path_abstract_path _ _ _ Hp) as Hf.
      simpl. rewrite Hp, Hf, last_snoc. eauto.
    + split; [|split; [done|]].
      * exists (TFile (pageOf tag)).
        apply (lookup_path_file _ _ {| fd_content := data;
                                       fd_frontmatter := ∅ |}).
        simpl. by rewrite lookup_insert_eq.
      * simpl. rewrite last_app. by destruct (bool_decide _).
Qed.

End CreateTagPageOutcomes.

Lemma X4_witness :
  Plugin.Async.createTagPage (resolves fetchTagData_model)
    (λ _ _ _, inl (Thrown "no template")) settings0 "proj" empty_world
  = inl (Thrown "no template",
         {| vault := vault empty_world; shown := None;
            calls := [CallFetchTagData "#proj"; CallGenerate "#proj"] |}).
Proof.
  destruct (X4_createTagPage_outcomes (resolves fetchTagData_model)
              (λ _ _ _, inl (Thrown "no template")) settings0 "proj"
              empty_world) as [Hrej _].
  destruct Hrej as [_ Hgen]; [vm_compute; reflexivity|].
  apply (Hgen []); vm_compute; reflexivity.
Defined.
